(** * Comcopilot: the audio-feature analysis pipeline

    A shallow embedding of [analysis_utils.py] and of [comcopilotapp.py],
    and the properties of the specification established over that
    embedding.

    Conventions of the embedding.

    - A Python [float] and a numpy [float64] are IEEE 754 binary64 numbers,
      the primitive floating-point numbers of Rocq: [+], [-], [*] and [/]
      round to nearest, ties to even, and the comparisons are those of
      IEEE 754, all false on NaN.  The few Python integers of the code
      (thresholds, the criteria that count [0] or [1], the number of
      criteria) are the binary64 numbers of the same value, with which
      Python computes the same results.
    - A [str] is the list of its code points.  The labels of the report,
      which the code writes as literals, are strings.
    - The sentinel [None] is [None] of [option]; an exception that escapes
      a function is [Raise e] in the monad [result] (pure code) or [io]
      (code that touches the file system).
    - What the libraries compute (the pitch tracker, the noise reduction,
      the Praat script, [np.mean], [np.std], Python's [float], whether an
      array can be allocated) is a method of the class [External]; the
      duration and the intensity contour of a sound, and the windows Praat
      can extract from it, are fields of the record [Sound].  Everything
      the repository's own code does with those values is written out.
    - The file system is the state of the monad [io]: whether
      [script_content.praat] exists, and the temporary files that exist. *)

From Stdlib Require Import ZArith Ascii Sorted Lia.
From Stdlib Require Import Floats.
From stdpp Require Import base option list strings gmap.

Set Warnings "-inexact-float".

Local Open Scope string_scope.
Local Open Scope list_scope.
Local Open Scope float_scope.

(** ** Binary64 numbers *)

Module Binary64.

Definition number : Set := PrimFloat.float.

(** The number of value [z], for [0 <= z < 2^53]. *)
Definition of_Z (z : Z) : number := PrimFloat.of_uint63 (Uint63.of_Z z).

Definition of_nat (n : nat) : number := of_Z (Z.of_nat n).

(** The largest integer at most [x], and the least integer at least [x];
    [None] when [x] is infinite or NaN. *)
Definition floor (x : number) : option Z :=
  match Prim2SF x with
  | S754_zero _ => Some 0%Z
  | S754_finite s m e => Some (Z.shiftl (if s then Z.neg m else Z.pos m) e)
  | _ => None
  end.

Definition ceil (x : number) : option Z := Z.opp <$> floor (- x).

End Binary64.

(** ** Python values, exceptions and built-ins *)

Module Py.
Import Binary64.

Inductive exn : Type :=
| TypeError
| ValueError
| IndexError
| ZeroDivisionError
| MemoryError
| FileNotFoundError
| LibraryError.

Inductive result (A : Type) : Type :=
| Ok (a : A)
| Raise (e : exn).
Arguments Ok {A} a.
Arguments Raise {A} e.

#[export] Instance result_ret : MRet result := @Ok.

#[export] Instance result_bind : MBind result := fun A B k m =>
  match m with
  | Ok a => k a
  | Raise e => Raise e
  end.

(** [try: body / except Exception: return handler] around a whole body. *)
Definition try_except {A} (body : result A) (handler : A) : A :=
  match body with
  | Ok a => a
  | Raise _ => handler
  end.

(** [sum(xs)]: the accumulator starts at [0] and the terms are added from
    left to right.  That is how numpy's numbers, those of the pipeline, are
    added; from version 3.12 on CPython adds plain Python floats with a
    compensation term, which changes nothing where the additions are exact,
    as in every sum evaluated in this file, and no property below depends
    on the value of an inexact sum. *)
Definition sum (xs : list number) : number := fold_left PrimFloat.add xs 0.

(** [max(xs, default=d)]: the first element that none of the later ones
    exceeds, [d] when there is none. *)
Definition max_default (xs : list number) (d : number) : number :=
  match xs with
  | [] => d
  | x :: xs' => fold_left (fun m y => if m <? y then y else m) xs' x
  end.

(** [x * k] and [x >= k] where [x] may be [None]. *)
Definition mul (x : option number) (k : number) : result number :=
  match x with
  | Some v => Ok (v * k)
  | None => Raise TypeError
  end.

Definition ge (x : option number) (k : number) : result bool :=
  match x with
  | Some v => Ok (k <=? v)
  | None => Raise TypeError
  end.

(** A [str], by its code points. *)
Definition str : Type := list N.

(** The string of Python with the characters of [s]. *)
Fixpoint chars (s : string) : str :=
  match s with
  | EmptyString => []
  | String c s' => N_of_ascii c :: chars s'
  end.

(** [c.isspace()], the white space [strip] and [split] look for: the code
    points that CPython lists in [_PyUnicode_IsWhitespace]. *)
Definition isspace (c : N) : bool :=
  ((9 <=? c) && (c <=? 13) || (28 <=? c) && (c <=? 32)
   || (c =? 133) || (c =? 160) || (c =? 5760)
   || (8192 <=? c) && (c <=? 8202)
   || (c =? 8232) || (c =? 8233) || (c =? 8239) || (c =? 8287)
   || (c =? 12288))%N.

(** [s.strip().split()]: the maximal runs of characters that are not white
    space. *)
Fixpoint split_from (s : str) (word : str) : list str :=
  match s with
  | [] => match word with [] => [] | _ => [word] end
  | c :: s' =>
      if isspace c then
        match word with [] => [] | _ => [word] end ++ split_from s' []
      else split_from s' (word ++ [c])
  end.

Definition split (s : str) : list str := split_from s [].

End Py.

(** ** The external collaborators *)

Module Praat.
Import Binary64.

(** [sound.to_intensity()]: the frame times [intensity.xs()] and the levels
    [intensity.values[0]]. *)
Record Intensity : Type := {
  xs : list number;
  values : list number
}.

(** A [parselmouth.Sound], by what the pipeline reads from it.
    [extractable from_time to_time] tells whether Praat can extract that
    window; it cannot when the window holds no sample. *)
Record Sound : Type := {
  duration : number;
  to_intensity : Py.result Intensity;
  extractable : number -> number -> bool
}.

(** The sound that [extract_part] returns, known by the sound it is a part
    of and by the window that was asked for. *)
Record Segment : Type := {
  source : Sound;
  from_time : number;
  to_time : number
}.

(** [sound.extract_part(from_time, to_time, preserve_times=True)] *)
Definition extract_part (sound : Sound) (from_time to_time : number)
    : Py.result Segment :=
  if extractable sound from_time to_time then
    Py.Ok {| source := sound; from_time := from_time; to_time := to_time |}
  else Py.Raise Py.LibraryError.



(** The array [wavfile.read] returns: one-dimensional for a mono file, one
    row of channel samples per frame otherwise. *)
Inductive ndarray (sample : Type) : Type :=
| Mono (frames : list sample)
| Channels (rows : list (list sample)).
Arguments Mono {sample} frames.
Arguments Channels {sample} rows.

(** What the libraries compute, each call either returning or raising. *)
Class External : Type := {
  sample : Type;
  (** [Sound(values, sampling_frequency=sr).to_pitch().selected_array['frequency']] *)
  to_pitch : list sample -> Z -> Py.result (list number);
  (** [Sound(nr.reduce_noise(y=values, y_noise=values[:sr/2], sr=sr), sr)] *)
  reduce_noise : Sound -> Py.result Sound;
  (** [run_file(script, -20, 2, 0.3, "yes", audio, path, 80, 400, 0.01,
      capture_output=True)[1]], from the script text and the saved segment *)
  run_file : string -> Segment -> string -> Py.result Py.str;
  (** [float(token)] *)
  float : Py.str -> Py.result number;
  (** [np.mean(xs)] and [np.std(xs)] *)
  mean : list number -> number;
  std : list number -> number;
  (** whether numpy can allocate an array of that many numbers *)
  allocates : Z -> bool
}.

End Praat.

(** ** The file system seen by the segment scorer *)

Module Fs.
Import Py Praat.

Inductive content : Type :=
| Text (s : string)
| Wav (segment : Segment).

(** [script] is the text of [script_content.praat] when that file exists;
    [temp] holds the files made by [tempfile] that still exist, by name;
    [next] is the next name [tempfile] hands out. *)
Record state : Type := {
  script : option string;
  temp : gmap nat content;
  next : nat
}.

Definition io (A : Type) : Type := state -> result A * state.

#[export] Instance io_ret : MRet io := fun A a s => (Ok a, s).

#[export] Instance io_bind : MBind io := fun A B k m s =>
  match m s with
  | (Ok a, s') => k a s'
  | (Raise e, s') => (Raise e, s')
  end.

Definition lift {A} (r : result A) : io A := fun s => (r, s).

(** [open("script_content.praat", "r").read()] inside
    [try: ... except FileNotFoundError:], [None] standing for the handler. *)
Definition read_script : io (option string) := fun s => (Ok (script s), s).

(** [tempfile.NamedTemporaryFile(..., delete=False)] once written and closed. *)
Definition named_temporary_file (c : content) : io nat := fun s =>
  (Ok (next s),
   {| script := script s; temp := <[next s := c]> (temp s); next := S (next s) |}).

(** [os.remove(name)] *)
Definition os_remove (name : nat) : io unit := fun s =>
  match temp s !! name with
  | Some _ =>
      (Ok tt, {| script := script s; temp := delete name (temp s); next := next s |})
  | None => (Raise FileNotFoundError, s)
  end.

(** No file carries a name that [tempfile] has yet to hand out. *)
Definition fresh (s : state) : Prop :=
  forall name, (next s <= name)%nat -> temp s !! name = None.

(** The state once [k] more temporary files were made and removed again. *)
Definition advance (k : nat) (s : state) : state :=
  {| script := script s; temp := temp s; next := (next s + k)%nat |}.

End Fs.

(** ** analysis_utils.py *)

Module AnalysisUtils.
Import Binary64 Py Praat Fs.

Section Analyzers.
Context `{External}.

(** *** analyze_pitch *)

(** [sound_values[:,0]] *)
Definition first_channel (rows : list (list sample)) : result (list sample) :=
  mapM (fun row => match row with
                   | x :: _ => Ok x
                   | [] => Raise IndexError
                   end) rows.

(** [(pitch_values > 0) & (pitch_values >= 75) & (pitch_values <= 400)] *)
Definition voiced_in_band (f : number) : bool :=
  (0 <? f) && (75 <=? f) && (f <=? 400).

(** [if sound_values.ndim > 1: sound_values = sound_values[:,0]] *)
Definition downmix (sound_values : ndarray sample) : result (list sample) :=
  match sound_values with
  | Channels rows => first_channel rows
  | Mono frames => Ok frames
  end.

(** The argument is what [wavfile.read(audio_data)] returns or raises. *)
Definition analyze_pitch
    (wav : result (Z * ndarray sample)) : option (gmap string number) :=
  try_except
    ('(sr, sound_values) ← wav;
     sound_values ← downmix sound_values;
     pitch_values ← to_pitch sound_values sr;
     let pitch_values_filtered := List.filter voiced_in_band pitch_values in
     if (length pitch_values_filtered =? 0)%nat then Ok None
     else
       let std_dev := std pitch_values_filtered in
       Ok (Some {[ "pitch" := std_dev ]}))
    None.

(** *** classify_speaker *)

Definition classify_speaker (std_dev : option number) : string :=
  match std_dev with
  | None => "Unknown"
  | Some v =>
      if (10 <=? v) && (v <=? 60) then "Balanced"
      else "Unbalanced"
  end.

(** *** analyze_volume *)

Definition low_threshold : number := 45.
Definition high_threshold : number := 75.

Definition analyze_volume (snd : Sound) : result string :=
  intensity ← to_intensity snd;
  let average_intensity :=
    if (0 <? length (values intensity))%nat
    then Some (mean (values intensity)) else None in
  match average_intensity with
  | None => Ok "Unknown volume"
  | Some average_intensity =>
      if average_intensity <? low_threshold then Ok "Volume too low"
      else if high_threshold <? average_intensity then Ok "Volume too loud"
      else Ok "Volume is ideal"
  end.

(** *** analyze_silences *)

(** A silence is the two-element list [[start, end]]; while it is open its
    end is still [None]. *)
Definition silence : Type := number * number.

Definition open_silence : Type := number * option number.

(** One turn of the [for time, value in zip(times, intensity_values)] loop
    over the pair [(silences, current_silence)]. *)
Definition scan_frame (silence_threshold min_silence_duration : number)
    (st : list silence * option open_silence) (frame : number * number)
    : list silence * option open_silence :=
  let '(silences, current_silence) := st in
  let '(time, value) := frame in
  if value <? silence_threshold then
    match current_silence with
    | None => (silences, Some (time, None))
    | Some _ => (silences, current_silence)
    end
  else
    match current_silence with
    | Some (start, stop) =>
        let stop := match stop with None => time | Some e => e end in
        (if min_silence_duration <=? stop - start
         then silences ++ [(start, stop)] else silences,
         None)
    | None => (silences, None)
    end.

(** The loop and the closing of a silence still open after it. *)
Definition scan_silences (silence_threshold min_silence_duration : number)
    (times intensity_values : list number) : result (list silence) :=
  let '(silences, current_silence) :=
    fold_left (scan_frame silence_threshold min_silence_duration)
      (zip times intensity_values) ([], None) in
  match current_silence with
  | Some (start, None) =>
      match last times with
      | None => Raise IndexError
      | Some stop =>
          if min_silence_duration <=? stop - start
          then Ok (silences ++ [(start, stop)]) else Ok silences
      end
  | _ => Ok silences
  end.

Definition analyze_silences (sound : Sound) (noise_reduction : bool)
    (silence_threshold min_silence_duration : number) : list silence :=
  try_except
    (sound ← (if noise_reduction then reduce_noise sound else Ok sound);
     intensity ← to_intensity sound;
     let intensity_values := values intensity in
     let times := xs intensity in
     scan_silences silence_threshold min_silence_duration times intensity_values)
    [].

Definition silence_threshold_default : number := 40.
Definition min_silence_duration_default : number := 0.5.

(** *** classify_silences *)

(** [end - start] *)
Definition span (s : silence) : number := snd s - fst s.

Definition classify_silences (silences : list silence)
    (total_duration_threshold initial_delay_threshold
       long_silence_threshold : number) : string :=
  match silences with
  | [] => "normal"
  | first :: _ =>
      let total_silence_duration := sum (map span silences) in
      let longest_silence := max_default (map span silences) 0 in
      let initial_delay := if fst first =? 0 then fst first else 0 in
      if long_silence_threshold <=? longest_silence then
        "silence too long"
      else if total_duration_threshold <? total_silence_duration then
        "too much silence"
      else if initial_delay_threshold <=? initial_delay then
        "delay"
      else
        "normal"
  end.

Definition total_duration_threshold_default : number := 15.
Definition initial_delay_threshold_default : number := 15.
Definition long_silence_threshold_default : number := 10.

(** *** segment_audio *)

(** The [i]-th value of [np.arange(start, stop, step)]: numpy stores
    [start] and [start + step], takes their difference as the increment and
    fills in [start + i * delta] from the third value on. *)
Definition arange_value (start step : number) (i : nat) : number :=
  match i with
  | 0%nat => start
  | 1%nat => start + step
  | _ => start + of_nat i * (start + step - start)
  end.

(** [np.arange(start, stop, step)] on Python floats: the integer
    [ceil((stop - start) / step)] is the number of values, none when it is
    not positive.  The division by a zero step raises; numpy raises when the
    quotient is NaN and when its ceiling is outside the range of an array
    index (at [2^63] itself, which its range test lets through, the
    conversion to an index overflows; the model lets that length raise with
    the larger ones); and the allocation of the array can fail. *)
Definition arange (start stop step : number) : result (list number) :=
  if step =? 0 then Raise ZeroDivisionError
  else
    let value := (stop - start) / step in
    if PrimFloat.is_nan value then Raise ValueError
    else
      match ceil value with
      | None => Raise ValueError
      | Some length =>
          if (length <? - 2 ^ 63)%Z || (2 ^ 63 <=? length)%Z then
            Raise ValueError
          else if (length <=? 0)%Z then Ok []
          else if allocates length then
            Ok (map (arange_value start step) (seq 0 (Z.to_nat length)))
          else Raise MemoryError
      end.

(** The window that starts at [start_time]. *)
Definition window (sound : Sound) (segment_length start_time : number)
    : number * number :=
  let end_time := start_time + segment_length in
  let end_time :=
    if duration sound <? end_time then duration sound else end_time in
  (start_time, end_time).

Definition segment_audio (sound : Sound) (segment_length : number)
    : list Segment :=
  try_except
    (starts ← arange 0 (duration sound) segment_length;
     mapM (fun start_time =>
             let '(start_time, end_time) :=
               window sound segment_length start_time in
             extract_part sound start_time end_time)
          starts)
    [].

Definition segment_length_default : number := 15.

(** *** analyze_segment *)

Definition analyze_segment (segment : Segment) (praat_script_path : nat)
    (path : string) : io (option (list str)) :=
  script ← read_script;
  match script with
  | None => mret None
  | Some praat_script_content =>
      temp_script_path ← named_temporary_file (Text praat_script_content);
      audio_file_path ← named_temporary_file (Wav segment);
      objects ← lift (run_file praat_script_content segment path);
      _ ← os_remove audio_file_path;
      _ ← os_remove temp_script_path;
      let z1 := objects in
      let z2 := split z1 in
      mret (Some z2)
  end.

(** *** average_score *)

(** The [for segment in segments] loop over the list [scores]; [len(None)]
    and an index out of range raise. *)
Fixpoint score_segments (segments : list Segment) (sourcerun : nat)
    (path : string) (score_index : nat) (scores : list number)
    : io (list number) :=
  match segments with
  | [] => mret scores
  | segment :: segments' =>
      z2 ← analyze_segment segment sourcerun path;
      match z2 with
      | None => lift (Raise TypeError)
      | Some z2 =>
          if (Nat.max 14 score_index <? length z2)%nat then
            match z2 !! score_index with
            | None => lift (Raise IndexError)
            | Some token =>
                x ← lift (float token);
                score_segments segments' sourcerun path score_index
                  (scores ++ [x])
            end
          else
            score_segments segments' sourcerun path score_index scores
      end
  end.

(** The first argument is what [parselmouth.Sound(audio_file_path)] returns
    or raises. *)
Definition average_score (audio : result Sound) (path : string)
    (score_index : nat) : io (option number) :=
  script ← read_script;
  match script with
  | None => mret None
  | Some praat_script_content =>
      sourcerun ← named_temporary_file (Text praat_script_content);
      sound ← lift audio;
      let segments := segment_audio sound segment_length_default in
      scores ← score_segments segments sourcerun path score_index [];
      match scores with
      | [] => mret None
      | _ =>
          let average_score := mean scores in
          _ ← os_remove sourcerun;
          mret (Some average_score)
      end
  end.

(** *** calculate_score *)

Definition calculate_score
    (positive_criteria_count available_criteria_count : number) : number :=
  if available_criteria_count =? 0 then 0
  else (positive_criteria_count / available_criteria_count) * 100.

End Analyzers.

End AnalysisUtils.

(** ** comcopilotapp.py *)

Module App.
Import Binary64 Py Praat Fs AnalysisUtils.

(** The values stored under the keys of [analysis_results]:
    [{"characteristic": s}], [{"score": x}], [{"rate": x}] and a bare
    number. *)
Inductive entry : Type :=
| Characteristic (s : string)
| Score (x : option number)
| Rate (x : option number)
| Number (x : number).

Section Orchestration.
Context `{External}.

Definition initial_results : gmap string entry :=
  {[ "pitch" := Characteristic "Error: Analysis failed";
     "volume" := Characteristic "Error: Analysis failed";
     "silence" := Characteristic "Error: Analysis failed";
     "pronunciation" := Score (Some 0);
     "articulation" := Rate (Some 0);
     "overall_score" := Number 0 ]}.

(** The sum of lines 88 to 92, its operands evaluated and added from left
    to right. *)
Definition positive_criteria_count
    (pitch_result volume_result silence_result : string)
    (pronunciation_score articulation_rate : option number) : result number :=
  let c1 := if String.eqb pitch_result "Balanced" then 1 else 0 in
  let c2 := if String.eqb volume_result "Volume is ideal" then 1 else 0 in
  let c3 := if String.eqb silence_result "normal" then 1 else 0 in
  c4 ← mul pronunciation_score 1;
  enough ← ge articulation_rate 3;
  let c5 := if enough : bool then 1 else 0 in
  mret (c1 + c2 + c3 + c4 + c5).

(** The body of the [try] block; its value is the argument of
    [analysis_results.update]. *)
Definition analysis (wav : result (Z * ndarray sample)) (audio : result Sound)
    (path : string) : io (gmap string entry) :=
  sound ← lift audio;
  let pitch_analysis_result := analyze_pitch wav in
  let pitch_result :=
    match pitch_analysis_result with
    | Some d =>
        if bool_decide (d ≠ ∅) && bool_decide (is_Some (d !! "pitch")) then
          let pitch_std_dev := d !! "pitch" in
          classify_speaker pitch_std_dev
        else "Error: Pitch analysis failed"
    | None => "Error: Pitch analysis failed"
    end in
  volume_result ← lift (analyze_volume sound);
  let silences :=
    analyze_silences sound true silence_threshold_default
      min_silence_duration_default in
  let silence_result :=
    classify_silences silences total_duration_threshold_default
      initial_delay_threshold_default long_silence_threshold_default in
  let segments := segment_audio sound segment_length_default in
  pronunciation_score ← average_score audio path 14;
  articulation_rate ← average_score audio path 3;
  let available_criteria_count := 5 in
  positive_criteria_count ←
    lift (positive_criteria_count pitch_result volume_result silence_result
            pronunciation_score articulation_rate);
  let overall_score :=
    calculate_score positive_criteria_count available_criteria_count in
  mret ({[ "pitch" := Characteristic pitch_result;
           "volume" := Characteristic volume_result;
           "silence" := Characteristic silence_result;
           "pronunciation" := Score pronunciation_score;
           "articulation" := Rate articulation_rate;
           "overall_score" := Score (Some overall_score) ]}
        : gmap string entry).

(** [try: ... analysis_results.update(...) / except Exception: log];
    the files made so far stay as they are. *)
Definition perform_analysis (wav : result (Z * ndarray sample))
    (audio : result Sound) (path : string) : io (gmap string entry) :=
  fun s =>
    let analysis_results := initial_results in
    match analysis wav audio path s with
    | (Ok updates, s') => (Ok (updates ∪ analysis_results), s')
    | (Raise _, s') => (Ok analysis_results, s')
    end.

End Orchestration.

End App.

(** ** comcopilotapp.py: the request handler and its helpers *)

Module Endpoint.
Import Py Praat Fs AnalysisUtils App.

(** A path, by the file it can name in the file system of the model: the
    Praat script, a file made by [tempfile], or a path that names no file,
    such as the empty path. *)
Inductive path : Type :=
| Script
| Temporary (name : nat)
| Other (name : string).

(** [os.path.exists(path)] *)
Definition path_exists (p : path) (s : state) : bool :=
  match p with
  | Script => bool_decide (is_Some (script s))
  | Temporary name => bool_decide (is_Some (temp s !! name))
  | Other _ => false
  end.

(** [os.remove(path)] *)
Definition remove (p : path) : io unit := fun s =>
  match p with
  | Script =>
      match script s with
      | Some _ => (Ok tt, {| script := None; temp := temp s; next := next s |})
      | None => (Raise FileNotFoundError, s)
      end
  | Temporary name => os_remove name s
  | Other _ => (Raise FileNotFoundError, s)
  end.

(** [not path], the test for the empty string. *)
Definition is_empty (p : path) : bool :=
  match p with
  | Other name => String.eqb name ""
  | _ => false
  end.

(** [file.write(contents)] on a temporary file that is open. *)
Definition write (name : nat) (c : content) : io unit := fun s =>
  (Ok tt, {| script := script s; temp := <[name := c]> (temp s); next := next s |}).

(** *** cleanup_files *)

(** Each path is tried on its own: an exception is logged and the loop goes
    on with the next path. *)
Fixpoint cleanup_files (file_paths : list path) : io unit :=
  match file_paths with
  | [] => mret tt
  | path :: file_paths' => fun s =>
      let attempt :=
        if path_exists path s then remove path else mret tt in
      cleanup_files file_paths' (attempt s).2
  end.

(** *** prepare_response_data *)

(** The content of a response: the report, or [{"error": message}]. *)
Inductive response_data : Type :=
| Report (criteria : gmap string entry) (overall_score : entry)
| Failure (error : string).

(** [None] stands for the [KeyError] of a missing key. *)
Definition prepare_response_data (analysis_results : gmap string entry)
    : option response_data :=
  pitch ← analysis_results !! "pitch";
  volume ← analysis_results !! "volume";
  silence ← analysis_results !! "silence";
  pronunciation ← analysis_results !! "pronunciation";
  articulation ← analysis_results !! "articulation";
  overall_score ← analysis_results !! "overall_score";
  Some (Report {[ "pitch" := pitch;
                  "volume" := volume;
                  "silence" := silence;
                  "pronunciation" := pronunciation;
                  "articulation" := articulation ]}
               overall_score).

(** *** convert_video_to_audio *)

(** The argument is the three calls to moviepy as one action that returns
    the name of the audio file it wrote; any exception gives the empty path. *)
Definition convert_video_to_audio (moviepy : io nat) : io path := fun s =>
  match moviepy s with
  | (Ok audio_file_path, s') => (Ok (Temporary audio_file_path), s')
  | (Raise _, s') => (Ok (Other ""), s')
  end.

(** *** analyze_video *)

(** What the handler answers: the JSON response it returns, given by the
    content handed to [JSONResponse] (the rendering of that content is
    Starlette's and not modelled), or the [HTTPException] it raises. *)
Inductive answer : Type :=
| JSONResponse (content : response_data)
| HTTPException (status_code : nat).

Section Handler.
Context `{External}.

(** The body of the [try] block.  [upload] is what [await file.read()]
    returns or raises, [moviepy] the conversion of the video file of the
    given name, [wav] and [audio] what reading the audio file gives.  A
    [KeyError] is not among the exceptions of [Py.exn]; [IndexError], the
    other [LookupError], stands for it, and the handler does not tell
    exceptions apart. *)
Definition handle (upload : result string) (moviepy : nat -> io nat)
    (wav : result (Z * ndarray sample)) (audio : result Sound)
    (path : string) : io answer :=
  video_file ← named_temporary_file (Text "");
  contents ← lift upload;
  _ ← write video_file (Text contents);
  let video_file_path := Temporary video_file in
  audio_file_path ← convert_video_to_audio (moviepy video_file);
  response_data ←
    (if is_empty audio_file_path then
       mret (Failure "Failed to convert video to audio.")
     else
       analysis_results ← perform_analysis wav audio path;
       match prepare_response_data analysis_results with
       | Some response_data => mret response_data
       | None => lift (Raise IndexError)
       end);
  _ ← cleanup_files [video_file_path; audio_file_path];
  mret (JSONResponse response_data).

(** [except Exception as e: raise HTTPException(status_code=500, ...)] *)
Definition analyze_video (upload : result string) (moviepy : nat -> io nat)
    (wav : result (Z * ndarray sample)) (audio : result Sound)
    (path : string) : io answer := fun s =>
  match handle upload moviepy wav audio path s with
  | (Ok response, s') => (Ok response, s')
  | (Raise _, s') => (Ok (HTTPException 500), s')
  end.

End Handler.

End Endpoint.

(** ** The silence detector as the specification words it *)

Module SilenceSpec.
Import Binary64 Py AnalysisUtils.

(** An interval is emitted when it lasts at least the minimum duration, its
    duration being the difference the code computes. *)
Definition emitted (min_silence_duration start stop : number) : list silence :=
  if min_silence_duration <=? stop - start then [(start, stop)] else [].

(** The scan with its single accumulator [opened], the start of the interval
    that is open, if any.  A frame below the threshold opens an interval at
    its time if none is open; a frame at or above the threshold closes the
    open interval at its time; at the end of the scan an interval still open
    is closed at [final], the last timestamp. *)
Fixpoint detect_from (silence_threshold min_silence_duration final : number)
    (opened : option number) (contour : list (number * number))
    : list silence :=
  match contour with
  | [] =>
      match opened with
      | Some start => emitted min_silence_duration start final
      | None => []
      end
  | (time, level) :: rest =>
      if level <? silence_threshold then
        detect_from silence_threshold min_silence_duration final
          (Some (default time opened)) rest
      else
        match opened with
        | Some start =>
            emitted min_silence_duration start time
            ++ detect_from silence_threshold min_silence_duration final
                 None rest
        | None =>
            detect_from silence_threshold min_silence_duration final None rest
        end
  end.

Definition detect (silence_threshold min_silence_duration : number)
    (contour : list (number * number)) : list silence :=
  detect_from silence_threshold min_silence_duration
    (default 0 (last (contour.*1))) None contour.

(** The frames of a contour that are below the threshold, and those that
    are not: the frames at or above it and, as the code tests [value <
    silence_threshold] only, those whose level is NaN. *)
Definition quiet (silence_threshold : number) (frame : number * number)
    : Prop :=
  (snd frame <? silence_threshold) = true.

Definition loud (silence_threshold : number) (frame : number * number)
    : Prop :=
  (snd frame <? silence_threshold) = false.

(** [a] is over before [b] begins. *)
Definition precedes (a b : silence) : Prop := (snd a <? fst b) = true.

(** Chronological and without overlap: every interval is over before any
    later one begins. *)
Definition chronological (silences : list silence) : Prop :=
  StronglySorted precedes silences.

(** The frames are in time order. *)
Definition time_ordered (contour : list (number * number)) : Prop :=
  StronglySorted (fun t t' => (t <? t') = true) (contour.*1).

End SilenceSpec.

(** ** The segment scorer as the specification words it *)

Module ScorerSpec.
Import Binary64 Py Praat.

(** The measurements accepted for a field index: those with more than
    [max(14, index)] tokens. *)
Definition accepted (score_index : nat) (measurements : list (list str))
    : list (list str) :=
  List.filter (fun z2 => (Nat.max 14 score_index <? length z2)%nat)
    measurements.

(** The average of the samples, [None] when there is none. *)
Definition average `{External} (samples : list number) : option number :=
  match samples with
  | [] => None
  | _ => Some (mean samples)
  end.

End ScorerSpec.

(** ** Concrete collaborators, used to run the pipeline on examples *)

Module Demo.
Import Binary64 Py Praat Fs AnalysisUtils App.

Definition digit (c : N) : option Z :=
  if ((48 <=? c) && (c <=? 57))%N then Some (Z.of_N c - 48)%Z else None.

Fixpoint read_digits (s : str) (acc : Z) (count : nat) : Z * nat * str :=
  match s with
  | c :: s' =>
      match digit c with
      | Some d => read_digits s' (10 * acc + d)%Z (S count)
      | None => (acc, count, s)
      end
  | [] => (acc, count, s)
  end.

(** [float] on the plain decimal numerals [ddd] and [ddd.ddd] of a few
    digits: the quotient of two integers that binary64 holds exactly is
    the number nearest to the numeral. *)
Definition decimal (s : str) : result number :=
  let '(i, ni, rest) := read_digits s 0%Z 0%nat in
  if (ni =? 0)%nat then Raise ValueError
  else
    match rest with
    | [] => Ok (of_Z i)
    | 46%N :: rest' =>
        let '(f, nf, rest'') := read_digits rest' 0%Z 0%nat in
        if (nf =? 0)%nat || negb (bool_decide (rest'' = [])) then
          Raise ValueError
        else
          Ok (of_Z (i * 10 ^ Z.of_nat nf + f) / of_Z (10 ^ Z.of_nat nf))
    | _ => Raise ValueError
    end.

(** [np.mean] and [np.std] as numpy computes them on fewer than eight
    numbers, which it adds from left to right: the sum over the count, and
    the square root of the mean of the squared deviations from the mean. *)
Definition average (xs : list number) : number :=
  sum xs / of_nat (length xs).

Definition deviation (xs : list number) : number :=
  let m := average xs in
  PrimFloat.sqrt (average (map (fun x => (x - m) * (x - m)) xs)).

(** A pitch tracker that reads the samples as frequencies, a noise
    reduction that changes nothing, and a measurement tool whose answer for
    the [i]-th window of fifteen seconds is the [i]-th entry of [outputs]
    (it fails past the end of the list). *)
Definition collaborators (outputs : list (result str)) : External := {|
  sample := Z;
  to_pitch := fun frames _ => Ok (map of_Z frames);
  reduce_noise := fun sound => Ok sound;
  run_file := fun _ segment _ =>
    nth (Z.to_nat (default 0%Z (floor (from_time segment / 15)))) outputs
      (Raise LibraryError);
  float := decimal;
  mean := average;
  std := deviation;
  allocates := fun _ => true
|}.

(** A sound of duration [d] with four loud frames, every window of which
    can be extracted. *)
Definition clip (d : number) : Sound := {|
  duration := d;
  to_intensity := Ok {| xs := [0; 1; 2; 3]; values := [60; 62; 58; 61] |};
  extractable := fun _ _ => true
|}.

(** The script is in place and no temporary file exists. *)
Definition disk : state := {| script := Some "form"; temp := ∅; next := 0 |}.

(** The script is missing. *)
Definition bare_disk : state := {| script := None; temp := ∅; next := 0 |}.

(** Ten tokens, and sixteen tokens with [3.5] at index 3 and [0.8] at 14. *)
Definition truncated_output : str := chars "a b c d e f g h i j".

Definition full_output : str :=
  chars "0 1 2 3.5 4 5 6 7 8 9 10 11 12 13 0.8 15".

(** A tool that answers in full for the first and the third window and
    with ten tokens for the second. *)
Definition mixed_answers : External :=
  collaborators [Ok full_output; Ok truncated_output; Ok full_output].

(** Collaborators that all fail. *)
Definition broken : External := {|
  sample := Z;
  to_pitch := fun _ _ => Raise LibraryError;
  reduce_noise := fun _ => Raise LibraryError;
  run_file := fun _ _ _ => Raise LibraryError;
  float := fun _ => Raise ValueError;
  mean := average;
  std := deviation;
  allocates := fun _ => false
|}.

(** A sound of twelve seconds with one frame per second, quiet from the
    third to the sixth second and again at the end. *)
Definition speech : Sound := {|
  duration := 12;
  to_intensity :=
    Ok {| xs := [0; 1; 2; 3; 4; 5; 6; 7; 8; 9; 10; 11];
          values := [60; 62; 61; 20; 22; 21; 63; 60; 59; 61; 25; 24] |};
  extractable := fun _ _ => true
|}.

(** A sound whose intensity cannot be computed. *)
Definition mute (d : number) : Sound := {|
  duration := d;
  to_intensity := Raise LibraryError;
  extractable := fun _ _ => true
|}.

(** A sound of three seconds with three samples, at 0.5 s, 1.5 s and
    2.5 s: a window can be extracted when it holds one of them. *)
Definition sparse : Sound := {|
  duration := 3;
  to_intensity := Raise LibraryError;
  extractable := fun from_time to_time =>
    existsb (fun t => (from_time <=? t) && (t <=? to_time)) [0.5; 1.5; 2.5]
|}.

(** A conversion that writes the audio file next to the video file, and one
    that fails after it has written the file. *)
Definition extract_audio (video : nat) : Fs.io nat :=
  Fs.named_temporary_file (Fs.Text "RIFF").

Definition interrupted (video : nat) : Fs.io nat := fun s =>
  (Raise LibraryError, (Fs.named_temporary_file (Fs.Text "RIFF") s).2).

End Demo.

(** * Properties *)

Import Binary64 Py Praat Fs AnalysisUtils App.

(** ** Comparisons of binary64 numbers

    The comparisons of the primitive numbers are specified on
    [spec_float], where a number that is not NaN has a place in a
    lexicographic order. *)

Lemma SFcompare_refl (x : spec_float) :
  x <> S754_nan -> SFcompare x x = Some Eq.
Proof.
  destruct x as [s|s| |s m e]; intros Hx; try contradiction; simpl.
  - reflexivity.
  - destruct s; reflexivity.
  - rewrite Z.compare_refl, Pos.compare_cont_refl. destruct s; reflexivity.
Qed.

Lemma SFcompare_nan_l (x : spec_float) : SFcompare S754_nan x = None.
Proof. reflexivity. Qed.

Lemma SFcompare_nan_r (x : spec_float) : SFcompare x S754_nan = None.
Proof. destruct x; reflexivity. Qed.

Lemma SFcompare_antisym (x y : spec_float) :
  SFcompare y x = option_map CompOpp (SFcompare x y).
Proof.
  destruct x as [sx|sx| |sx mx ex], y as [sy|sy| |sy my ey];
    try destruct sx; try destruct sy; try reflexivity; simpl;
    rewrite (Z.compare_antisym ey ex);
    destruct (ey ?= ex)%Z; simpl; try reflexivity;
    change (Pos.compare_cont Eq my mx) with (my ?= mx)%positive;
    change (Pos.compare_cont Eq mx my) with (mx ?= my)%positive;
    rewrite (Pos.compare_antisym my mx);
    destruct (my ?= mx)%positive; reflexivity.
Qed.

(** The position of a number that is not NaN in the order of the
    comparisons: a rank by sign and class, then the exponent and the
    mantissa, both negated for a negative number. *)
Definition SFkey (x : spec_float) : Z * Z * Z :=
  match x with
  | S754_nan => (0, 0, 0)
  | S754_infinity true => (-2, 0, 0)
  | S754_finite true m e => (-1, - e, Z.neg m)
  | S754_zero _ => (0, 0, 0)
  | S754_finite false m e => (1, e, Z.pos m)
  | S754_infinity false => (2, 0, 0)
  end%Z.

Definition key_compare (a b : Z * Z * Z) : comparison :=
  match (a.1.1 ?= b.1.1)%Z with
  | Eq => match (a.1.2 ?= b.1.2)%Z with
          | Eq => (a.2 ?= b.2)%Z
          | c => c
          end
  | c => c
  end.

Lemma SFcompare_key (x y : spec_float) :
  x <> S754_nan -> y <> S754_nan ->
  SFcompare x y = Some (key_compare (SFkey x) (SFkey y)).
Proof.
  destruct x as [sx|sx| |sx mx ex], y as [sy|sy| |sy my ey];
    intros Hx Hy; try contradiction;
    try destruct sx; try destruct sy; try reflexivity;
    unfold key_compare; simpl.
  rewrite Z.compare_opp, (Z.compare_antisym ex ey).
  destruct (ex ?= ey)%Z; reflexivity.
Qed.

Lemma key_compare_trans (a b c : Z * Z * Z) :
  key_compare a b <> Gt -> key_compare b c <> Gt -> key_compare a c <> Gt.
Proof.
  destruct a as [[a1 a2] a3], b as [[b1 b2] b3], c as [[c1 c2] c3].
  unfold key_compare. simpl.
  destruct (Z.compare_spec a1 b1), (Z.compare_spec b1 c1),
    (Z.compare_spec a1 c1); try lia; try congruence;
    destruct (Z.compare_spec a2 b2), (Z.compare_spec b2 c2),
      (Z.compare_spec a2 c2); try lia; try congruence;
    destruct (Z.compare_spec a3 b3), (Z.compare_spec b3 c3),
      (Z.compare_spec a3 c3); try lia; congruence.
Qed.

Lemma key_compare_refl (a : Z * Z * Z) : key_compare a a = Eq.
Proof. unfold key_compare. rewrite !Z.compare_refl. reflexivity. Qed.

Lemma key_compare_lt_trans (a b c : Z * Z * Z) :
  key_compare a b = Lt -> key_compare b c <> Gt -> key_compare a c = Lt.
Proof.
  destruct a as [[a1 a2] a3], b as [[b1 b2] b3], c as [[c1 c2] c3].
  unfold key_compare. simpl.
  destruct (Z.compare_spec a1 b1), (Z.compare_spec b1 c1),
    (Z.compare_spec a1 c1); try lia; try congruence;
    destruct (Z.compare_spec a2 b2), (Z.compare_spec b2 c2),
      (Z.compare_spec a2 c2); try lia; try congruence;
    destruct (Z.compare_spec a3 b3), (Z.compare_spec b3 c3),
      (Z.compare_spec a3 c3); try lia; congruence.
Qed.

Lemma key_compare_antisym (a b : Z * Z * Z) :
  key_compare b a = CompOpp (key_compare a b).
Proof.
  unfold key_compare.
  rewrite (Z.compare_antisym a.1.1 b.1.1), (Z.compare_antisym a.1.2 b.1.2),
    (Z.compare_antisym a.2 b.2).
  destruct (a.1.1 ?= b.1.1)%Z, (a.1.2 ?= b.1.2)%Z, (a.2 ?= b.2)%Z; reflexivity.
Qed.

(** The comparisons of Python on binary64 numbers. *)

Lemma is_nan_spec (x : number) :
  PrimFloat.is_nan x = true <-> Prim2SF x = S754_nan.
Proof.
  unfold PrimFloat.is_nan. rewrite FloatAxioms.eqb_spec. unfold SFeqb.
  destruct (Prim2SF x) as [s|s| |s m e] eqn:E.
  - simpl. split; discriminate.
  - destruct s; simpl; split; discriminate.
  - simpl. split; reflexivity.
  - rewrite SFcompare_refl by discriminate. simpl. split; discriminate.
Qed.

Lemma is_number (x : number) :
  PrimFloat.is_nan x = false <-> Prim2SF x <> S754_nan.
Proof.
  pose proof (is_nan_spec x) as [Hnan Hspec].
  destruct (PrimFloat.is_nan x); split; intros Hx.
  - discriminate.
  - destruct Hx. apply Hnan. reflexivity.
  - intros Hsf. apply Hspec in Hsf. discriminate.
  - reflexivity.
Qed.

Lemma leb_number (x y : number) :
  (x <=? y) = true -> PrimFloat.is_nan x = false /\ PrimFloat.is_nan y = false.
Proof.
  rewrite FloatAxioms.leb_spec, !is_number. unfold SFleb.
  destruct (Prim2SF x), (Prim2SF y); simpl; try discriminate;
    intros _; split; discriminate.
Qed.

Lemma ltb_number (x y : number) :
  (x <? y) = true -> PrimFloat.is_nan x = false /\ PrimFloat.is_nan y = false.
Proof.
  rewrite FloatAxioms.ltb_spec, !is_number. unfold SFltb.
  destruct (Prim2SF x), (Prim2SF y); simpl; try discriminate;
    intros _; split; discriminate.
Qed.


Lemma ltb_leb (x y : number) : (x <? y) = true -> (x <=? y) = true.
Proof.
  rewrite FloatAxioms.ltb_spec, FloatAxioms.leb_spec. unfold SFltb, SFleb.
  destruct (SFcompare _ _) as [[]|]; congruence.
Qed.

Lemma leb_trans (x y z : number) :
  (x <=? y) = true -> (y <=? z) = true -> (x <=? z) = true.
Proof.
  intros Hxy Hyz.
  destruct (leb_number _ _ Hxy) as [Hx Hy], (leb_number _ _ Hyz) as [_ Hz].
  apply is_number in Hx, Hy, Hz. revert Hxy Hyz.
  rewrite !FloatAxioms.leb_spec. unfold SFleb.
  rewrite !SFcompare_key by assumption.
  pose proof (key_compare_trans (SFkey (Prim2SF x)) (SFkey (Prim2SF y))
                (SFkey (Prim2SF z))) as Htrans.
  destruct (key_compare (SFkey (Prim2SF x)) (SFkey (Prim2SF y))),
    (key_compare (SFkey (Prim2SF y)) (SFkey (Prim2SF z))),
    (key_compare (SFkey (Prim2SF x)) (SFkey (Prim2SF z)));
    try reflexivity; try discriminate; intros _ _;
    exfalso; apply Htrans; congruence.
Qed.

(** Between two numbers one of [x < y] and [y <= x] holds. *)
Lemma ltb_false_leb (x y : number) :
  PrimFloat.is_nan x = false -> PrimFloat.is_nan y = false ->
  (x <? y) = false -> (y <=? x) = true.
Proof.
  intros Hx Hy. apply is_number in Hx, Hy.
  rewrite FloatAxioms.ltb_spec, FloatAxioms.leb_spec. unfold SFltb, SFleb.
  rewrite (SFcompare_antisym (Prim2SF x) (Prim2SF y)).
  rewrite (SFcompare_key (Prim2SF x) (Prim2SF y)) by assumption. simpl.
  destruct (key_compare _ _); simpl; congruence.
Qed.

Lemma leb_false_ltb (x y : number) :
  PrimFloat.is_nan x = false -> PrimFloat.is_nan y = false ->
  (x <=? y) = false -> (y <? x) = true.
Proof.
  intros Hx Hy. apply is_number in Hx, Hy.
  rewrite FloatAxioms.ltb_spec, FloatAxioms.leb_spec. unfold SFltb, SFleb.
  rewrite (SFcompare_antisym (Prim2SF x) (Prim2SF y)).
  rewrite (SFcompare_key (Prim2SF x) (Prim2SF y)) by assumption. simpl.
  destruct (key_compare _ _); simpl; congruence.
Qed.

(** A number equal to zero is [0.0] or [-0.0]. *)
Lemma eqb_zero (x : number) :
  (x =? 0) = true -> exists s, Prim2SF x = S754_zero s.
Proof.
  rewrite FloatAxioms.eqb_spec. change (Prim2SF 0) with (S754_zero false). unfold SFeqb.
  destruct (Prim2SF x) as [s|s| |s m e]; simpl.
  - intros _. exists s. reflexivity.
  - destruct s; discriminate.
  - discriminate.
  - destruct s; discriminate.
Qed.

Lemma leb_zero (c x : number) :
  (x =? 0) = true -> (c <=? x) = (c <=? 0).
Proof.
  intros Hx. apply eqb_zero in Hx as [s Hx].
  rewrite !FloatAxioms.leb_spec, Hx. change (Prim2SF 0) with (S754_zero false).
  unfold SFleb. destruct (Prim2SF c) as [sc|sc| |sc mc ec]; reflexivity.
Qed.

(** [x - x] is zero, or NaN when [x] is infinite or NaN: it is below every
    positive number. *)
Lemma sub_diag (x : number) :
  Prim2SF (x - x) = S754_zero false \/ Prim2SF (x - x) = S754_nan.
Proof.
  rewrite sub_spec. unfold SF64sub, SFsub.
  destruct (Prim2SF x) as [s|s| |s m e].
  - left. destruct s; reflexivity.
  - right. destruct s; reflexivity.
  - right. reflexivity.
  - left.
    generalize (cond_Zopp s (Z.pos (shl_align m e (IntDef.Z.min e e)).1)).
    intros a. replace (IntDef.Z.sub a a) with 0%Z; [reflexivity|].
    symmetry. exact (Z.sub_diag a).
Qed.

Lemma sub_diag_below (m x : number) :
  (0 <? m) = true -> (m <=? x - x) = false.
Proof.
  rewrite FloatAxioms.ltb_spec, FloatAxioms.leb_spec. change (Prim2SF 0) with (S754_zero false).
  unfold SFltb, SFleb.
  destruct (sub_diag x) as [-> | ->].
  - destruct (Prim2SF m) as [s|s| |s e k]; try destruct s; simpl; congruence.
  - rewrite SFcompare_nan_r. reflexivity.
Qed.

Lemma ltb_not_leb (x y : number) : (x <? y) = true -> (y <=? x) = false.
Proof.
  rewrite FloatAxioms.ltb_spec, FloatAxioms.leb_spec. unfold SFltb, SFleb.
  rewrite (SFcompare_antisym (Prim2SF x) (Prim2SF y)).
  destruct (SFcompare (Prim2SF x) (Prim2SF y)) as [[]|]; simpl; congruence.
Qed.

Lemma leb_refl (x : number) : PrimFloat.is_nan x = false -> (x <=? x) = true.
Proof.
  intros Hx. apply is_number in Hx.
  rewrite FloatAxioms.leb_spec. unfold SFleb.
  rewrite SFcompare_refl by exact Hx. reflexivity.
Qed.

(** ** The largest of a list of numbers *)

(** [max] returns a number at least as large as the one it starts from,
    when that one is a number. *)
Lemma fold_max_ge (xs : list number) (m : number) :
  PrimFloat.is_nan m = false ->
  (m <=? fold_left (fun m y => if m <? y then y else m) xs m) = true.
Proof.
  revert m. induction xs as [|x xs IH]; intros m Hm; simpl.
  - apply leb_refl, Hm.
  - destruct (m <? x) eqn:E; [|apply IH, Hm].
    apply leb_trans with x; [apply ltb_leb, E|].
    apply IH. apply ltb_number in E as [_ Hx]. exact Hx.
Qed.

Lemma fold_max_upper (xs : list number) (m x : number) :
  PrimFloat.is_nan m = false ->
  PrimFloat.is_nan x = false ->
  In x xs ->
  (x <=? fold_left (fun m y => if m <? y then y else m) xs m) = true.
Proof.
  revert m. induction xs as [|y ys IH]; intros m Hm Hx Hin; [destruct Hin|].
  destruct Hin as [->|Hin]; simpl.
  - destruct (m <? x) eqn:E; [apply fold_max_ge, Hx|].
    apply leb_trans with m; [|apply fold_max_ge, Hm].
    apply ltb_false_leb; assumption.
  - apply IH; [|exact Hx|exact Hin].
    destruct (m <? y) eqn:E; [|exact Hm].
    apply ltb_number in E as [_ Hy]. exact Hy.
Qed.

(** When the first element is a number, [max] is an upper bound of the
    numbers it ranges over. *)
Lemma max_default_upper (first : number) (rest : list number) (d x : number) :
  PrimFloat.is_nan first = false ->
  PrimFloat.is_nan x = false ->
  In x (first :: rest) ->
  (x <=? max_default (first :: rest) d) = true.
Proof.
  intros Hfirst Hx [->|Hin]; simpl.
  - apply fold_max_ge, Hx.
  - apply fold_max_upper; assumption.
Qed.

(** [max] returns one of the elements it ranges over. *)
Lemma fold_max_in (xs : list number) (m : number) :
  fold_left (fun m y => if m <? y then y else m) xs m = m
  \/ In (fold_left (fun m y => if m <? y then y else m) xs m) xs.
Proof.
  revert m. induction xs as [|x xs IH]; intros m; [left; reflexivity|].
  cbn [fold_left].
  destruct (IH (if m <? x then x else m)) as [Hkeep|Hin].
  - destruct (m <? x); [right; left; symmetry|left]; exact Hkeep.
  - right. right. exact Hin.
Qed.

Lemma max_default_in (x : number) (xs : list number) (d : number) :
  In (max_default (x :: xs) d) (x :: xs).
Proof.
  simpl. destruct (fold_max_in xs x) as [Hkeep|Hin].
  - left. symmetry. exact Hkeep.
  - right. exact Hin.
Qed.

(** ** Score aggregation *)

(** The quotient is rounded before it is multiplied by 100, so the score is
    not [100 * positive / available]: one criterion of three scores
    [33.33333333333333], where [100 * 1 / 3] is [33.333333333333336].  The
    score is the number [4691249611844266 * 2^-47], three times which is
    less than [100]. *)
Lemma calculate_score_rounds_the_quotient :
  calculate_score 1 3 = 0x1.0aaaaaaaaaaaap+5
  /\ 100 * 1 / 3 = 0x1.0aaaaaaaaaaabp+5
  /\ calculate_score 1 3 <> 100 * 1 / 3
  /\ Prim2SF (calculate_score 1 3) = S754_finite false 4691249611844266 (-47)
  /\ (3 * 4691249611844266 < 100 * 2 ^ 47)%Z.
Proof.
  split; [reflexivity|]. split; [reflexivity|].
  split; [vm_compute; discriminate|]. split; [reflexivity|]. lia.
Qed.

(** C1.  The score is [(positive / available) * 100], the quotient rounded
    to binary64 before the product is, and [0] when no criterion is
    available.  In the positive count the pronunciation average enters as
    it is, after the criteria of pitch, volume and silence, which count [0]
    or [1] each, and before that of the articulation, which counts [0] or
    [1]; with a balanced pitch, an ideal volume, a normal silence pattern,
    a pronunciation average of [0.8] and an articulation average of [4] the
    positive count is [4.8] and the score [96]. *)
Theorem calculate_score_ratio (positive available : number) :
  ((available =? 0) = true -> calculate_score positive available = 0)
  /\ ((available =? 0) = false ->
      calculate_score positive available = positive / available * 100)
  /\ (forall pitch_result volume_result silence_result pronunciation
             articulation,
        exists others enough : number,
          positive_criteria_count pitch_result volume_result silence_result
            (Some pronunciation) (Some articulation)
          = Ok (others + pronunciation * 1 + enough)
          /\ In others [0; 1; 2; 3]
          /\ enough = (if 3 <=? articulation then 1 else 0))
  /\ positive_criteria_count "Balanced" "Volume is ideal" "normal"
       (Some 0.8) (Some 4) = Ok (1 + 1 + 1 + 0.8 * 1 + 1)
  /\ 1 + 1 + 1 + 0.8 * 1 + 1 = 4.8
  /\ calculate_score 4.8 5 = 96.
Proof.
  unfold calculate_score. split; [|split; [|split]].
  - intros ->. reflexivity.
  - intros ->. reflexivity.
  - intros pitch_result volume_result silence_result pronunciation
      articulation.
    unfold positive_criteria_count. simpl.
    exists
      ((if String.eqb pitch_result "Balanced" then 1 else 0)
       + (if String.eqb volume_result "Volume is ideal" then 1 else 0)
       + (if String.eqb silence_result "normal" then 1 else 0)),
      (if 3 <=? articulation then 1 else 0).
    split; [reflexivity|]. split; [|reflexivity].
    destruct (String.eqb pitch_result _), (String.eqb volume_result _),
      (String.eqb silence_result _); vm_compute; tauto.
  - repeat split; reflexivity.
Qed.

Lemma calculate_score_ratio_witness :
  calculate_score 4.8 5 = 4.8 / 5 * 100 /\ calculate_score 4.8 0 = 0.
Proof.
  split.
  - destruct (calculate_score_ratio 4.8 5) as (_ & Hratio & _).
    apply Hratio. reflexivity.
  - destruct (calculate_score_ratio 4.8 0) as (Hzero & _).
    apply Hzero. reflexivity.
Defined.

(** ** Silence detection *)

Section SilenceDetector.
Import SilenceSpec.
Variables silence_threshold min_silence_duration : number.

Abbreviation step := (scan_frame silence_threshold min_silence_duration).
Abbreviation scan := (detect_from silence_threshold min_silence_duration).
Abbreviation emit := (emitted min_silence_duration).

Lemma emitted_inv (start stop : number) (s : silence) :
  In s (emit start stop) ->
  s = (start, stop) /\ (min_silence_duration <=? stop - start) = true.
Proof.
  unfold emitted. destruct (_ <=? _); [|intros []].
  intros [<-|[]]. split; reflexivity.
Qed.

(** The loop started with [acc] emitted and [opened] open, then closed at
    [final], emits [acc] followed by what the scan of the specification
    emits from there. *)
Lemma scan_fold (frames : list (number * number)) (final : number) :
  forall (acc : list silence) (opened : option number),
  exists silences opened',
    fold_left step frames (acc, (fun start => (start, None)) <$> opened)
    = (silences, (fun start => (start, None)) <$> opened')
    /\ silences ++ match opened' with
                   | Some start => emit start final
                   | None => []
                   end
       = acc ++ scan final opened frames.
Proof.
  induction frames as [|[time level] rest IH]; intros acc opened.
  - exists acc, opened. split; reflexivity.
  - simpl. destruct (level <? silence_threshold).
    + destruct opened as [start|]; simpl.
      * apply (IH acc (Some start)).
      * apply (IH acc (Some time)).
    + destruct opened as [start|]; simpl.
      * destruct (IH (if min_silence_duration <=? time - start
                      then acc ++ [(start, time)] else acc) None)
          as (silences & opened' & Hfold & Hout).
        exists silences, opened'. split; [exact Hfold|].
        rewrite Hout. unfold emitted.
        destruct (_ <=? _); [rewrite <- app_assoc|]; reflexivity.
      * apply (IH acc None).
Qed.

(** The detector of the source computes the scan of the specification. *)
Lemma scan_silences_detect (contour : list (number * number)) :
  scan_silences silence_threshold min_silence_duration
    (contour.*1) (contour.*2)
  = Ok (detect silence_threshold min_silence_duration contour).
Proof.
  unfold scan_silences, detect. rewrite zip_fst_snd.
  destruct contour as [|frame rest]; [reflexivity|].
  destruct (last_is_Some ((frame :: rest).*1)) as [_ [final Hfinal]];
    [discriminate|].
  destruct (scan_fold (frame :: rest) final [] None)
    as (silences & opened' & Hfold & Hout).
  change (fold_left step (frame :: rest) ([], None)
          = (silences, (fun start => (start, None)) <$> opened')) in Hfold.
  revert Hfold.
  generalize (fold_left step (frame :: rest) ([], None)).
  intros st ->. rewrite Hfinal. rewrite app_nil_l in Hout.
  change (default 0 (Some final)) with final. rewrite <- Hout.
  destruct opened' as [start|]; simpl.
  - unfold emitted. destruct (_ <=? _); [|rewrite app_nil_r]; reflexivity.
  - rewrite app_nil_r. reflexivity.
Qed.

(** What the scan emits was emitted by the duration test. *)
Lemma scan_emits_long (contour : list (number * number)) (final : number) :
  forall (opened : option number) (s : silence),
  In s (scan final opened contour) ->
  (min_silence_duration <=? span s) = true.
Proof.
  induction contour as [|[time level] rest IH]; intros opened s; simpl.
  - destruct opened as [start|]; [|intros []].
    intros Hin. apply emitted_inv in Hin as [-> Hlong]. exact Hlong.
  - destruct (level <? silence_threshold); [apply IH|].
    destruct opened as [start|]; [|apply IH].
    rewrite in_app_iff. intros [Hin|Hin]; [|apply (IH None), Hin].
    apply emitted_inv in Hin as [-> Hlong]. exact Hlong.
Qed.

(** An interval starts where the scan found an interval open or at the
    time of one of the frames. *)
Lemma scan_starts (contour : list (number * number)) (final : number) :
  forall (opened : option number) (s : silence),
  In s (scan final opened contour) ->
  opened = Some (fst s) \/ In (fst s) (contour.*1).
Proof.
  induction contour as [|[time level] rest IH]; intros opened s; simpl.
  - destruct opened as [start|]; [|intros []].
    intros Hin. apply emitted_inv in Hin as [-> _]. left. reflexivity.
  - destruct (level <? silence_threshold).
    + intros Hin. apply IH in Hin as [Hopen|Hin]; [|right; right; exact Hin].
      destruct opened as [start|]; simpl in Hopen; injection Hopen as <-.
      * left. reflexivity.
      * right. left. reflexivity.
    + destruct opened as [start|].
      * rewrite in_app_iff. intros [Hin|Hin].
        -- apply emitted_inv in Hin as [-> _]. left. reflexivity.
        -- apply IH in Hin as [Hopen|Hin]; [discriminate|].
           right. right. exact Hin.
      * intros Hin. apply IH in Hin as [Hopen|Hin]; [discriminate|].
        right. right. exact Hin.
Qed.

(** An interval ends at the time of one of the frames or at the closing
    time. *)
Lemma scan_stops (contour : list (number * number)) (final : number) :
  forall (opened : option number) (s : silence),
  In s (scan final opened contour) ->
  snd s = final \/ In (snd s) (contour.*1).
Proof.
  induction contour as [|[time level] rest IH]; intros opened s; simpl.
  - destruct opened as [start|]; [|intros []].
    intros Hin. apply emitted_inv in Hin as [-> _]. left. reflexivity.
  - destruct (level <? silence_threshold).
    + intros Hin. apply IH in Hin as [Hstop|Hin]; [left|right; right];
        assumption.
    + destruct opened as [start|].
      * rewrite in_app_iff. intros [Hin|Hin].
        -- apply emitted_inv in Hin as [-> _]. right. left. reflexivity.
        -- apply IH in Hin as [Hstop|Hin]; [left|right; right]; assumption.
      * intros Hin. apply IH in Hin as [Hstop|Hin]; [left|right; right];
          assumption.
Qed.

(** Over frames in time order the intervals come out in time order and do
    not overlap. *)
Lemma scan_chronological (contour : list (number * number)) (final : number) :
  time_ordered contour ->
  forall opened : option number, chronological (scan final opened contour).
Proof.
  unfold time_ordered, chronological.
  induction contour as [|[time level] rest IH]; intros Hsorted opened; simpl.
  - destruct opened as [start|]; [|constructor].
    unfold emitted. destruct (_ <=? _); repeat constructor.
  - simpl in Hsorted. apply StronglySorted_inv in Hsorted as [Hrest Hlater].
    destruct (level <? silence_threshold); [apply IH, Hrest|].
    destruct opened as [start|]; [|apply IH, Hrest].
    unfold emitted. destruct (_ <=? _); simpl; [|apply IH, Hrest].
    constructor; [apply IH, Hrest|].
    apply Forall_forall. intros s Hin. apply list_elem_of_In in Hin.
    apply scan_starts in Hin as [Hopen|Hin]; [discriminate|].
    rewrite Forall_forall in Hlater. apply list_elem_of_In in Hin.
    exact (Hlater _ Hin).
Qed.

(** In a list in time order every time but the last is before the last. *)
Lemma last_is_latest (times : list number) (final : number) :
  StronglySorted (fun t t' => (t <? t') = true) times ->
  last times = Some final ->
  Forall (fun t => (t <? final) = true \/ t = final) times.
Proof.
  induction times as [|t times IH]; intros Hsorted Hlast; [constructor|].
  apply StronglySorted_inv in Hsorted as [Hrest Hlater].
  destruct times as [|t' times].
  - injection Hlast as <-. constructor; [right; reflexivity|constructor].
  - rewrite last_cons_cons in Hlast. constructor; [|apply IH; assumption].
    left. rewrite Forall_forall in Hlater.
    apply Hlater, last_Some_elem_of, Hlast.
Qed.

(** Over frames in time order, closed at the last of their times or later,
    an interval ends after it starts, unless it starts at the closing time
    and ends there too. *)
Lemma scan_forward (contour : list (number * number)) (final : number) :
  time_ordered contour ->
  Forall (fun t => (t <? final) = true \/ t = final) (contour.*1) ->
  forall (opened : option number) (s : silence),
  (forall start, opened = Some start ->
     ((start <? final) = true \/ start = final)
     /\ Forall (fun t => (start <? t) = true) (contour.*1)) ->
  In s (scan final opened contour) ->
  (fst s <? snd s) = true \/ fst s = snd s.
Proof.
  unfold time_ordered.
  induction contour as [|[time level] rest IH];
    intros Hsorted Hfinal opened s Hopened; simpl.
  - destruct opened as [start|]; [|intros []].
    intros Hin. apply emitted_inv in Hin as [-> _].
    destruct (Hopened start eq_refl) as [Hstart _]. exact Hstart.
  - simpl in Hsorted, Hfinal.
    apply StronglySorted_inv in Hsorted as [Hrest Hlater].
    apply Forall_cons in Hfinal as [Htime Hfinal].
    destruct (level <? silence_threshold).
    + apply (IH Hrest Hfinal). intros start' Hstart'.
      destruct opened as [start|]; simpl in Hstart'; injection Hstart' as <-.
      * destruct (Hopened start eq_refl) as [Hstart Hnext].
        simpl in Hnext. apply Forall_cons in Hnext as [_ Hnext].
        split; assumption.
      * split; [exact Htime|exact Hlater].
    + destruct opened as [start|].
      * rewrite in_app_iff. intros [Hin|Hin].
        -- apply emitted_inv in Hin as [-> _]. left.
           destruct (Hopened start eq_refl) as [_ Hnext].
           simpl in Hnext. apply Forall_cons in Hnext as [Hnext _].
           exact Hnext.
        -- revert Hin. apply (IH Hrest Hfinal). intros start' [=].
      * apply (IH Hrest Hfinal). intros start' [=].
Qed.

(** Frames at or above the threshold leave a scan with nothing open as it
    is, and frames below it leave a scan with an interval open as it is. *)
Lemma scan_skips_loud (noisy rest : list (number * number)) (final : number) :
  Forall (loud silence_threshold) noisy ->
  scan final None (noisy ++ rest) = scan final None rest.
Proof.
  induction 1 as [|[time level] noisy Hloud _ IH]; [reflexivity|].
  unfold loud in Hloud. simpl in *. rewrite Hloud. exact IH.
Qed.

Lemma scan_stays_open (still rest : list (number * number))
    (final start : number) :
  Forall (quiet silence_threshold) still ->
  scan final (Some start) (still ++ rest) = scan final (Some start) rest.
Proof.
  induction 1 as [|[time level] still Hquiet _ IH]; [reflexivity|].
  unfold quiet in Hquiet. simpl in *. rewrite Hquiet. exact IH.
Qed.

(** With nothing open and no frame left, the closing time plays no part. *)
Lemma last_fst_app (front back : list (number * number)) :
  back <> [] -> last ((front ++ back).*1) = last (back.*1).
Proof.
  intros Hback. rewrite fmap_app.
  destruct back as [|frame back]; [contradiction|].
  rewrite fmap_cons. apply last_app_cons.
Qed.

Abbreviation found := (detect silence_threshold min_silence_duration).

Lemma detect_skips_loud (noisy rest : list (number * number)) :
  Forall (loud silence_threshold) noisy -> found (noisy ++ rest) = found rest.
Proof.
  intros Hloud. unfold detect. rewrite scan_skips_loud by exact Hloud.
  destruct rest as [|frame rest]; [reflexivity|].
  rewrite last_fst_app by discriminate. reflexivity.
Qed.

Lemma detect_closes (first closing : number * number)
    (still rest : list (number * number)) :
  Forall (quiet silence_threshold) (first :: still) ->
  loud silence_threshold closing ->
  found (first :: still ++ closing :: rest)
  = emit (fst first) (fst closing) ++ found rest.
Proof.
  intros Hquiet Hloud. apply Forall_cons in Hquiet as [Hfirst Hstill].
  unfold detect.
  set (final := default 0 (last ((first :: still ++ closing :: rest).*1))).
  assert (Hfinal : rest <> [] -> final = default 0 (last (rest.*1))).
  { intros Hrest. subst final.
    replace (first :: still ++ closing :: rest)
      with ((first :: still ++ [closing]) ++ rest)
      by (simpl; rewrite <- app_assoc; reflexivity).
    rewrite last_fst_app by exact Hrest. reflexivity. }
  clearbody final.
  destruct first as [time level], closing as [time' level'].
  unfold quiet, loud in Hfirst, Hloud. simpl in Hfirst, Hloud. simpl.
  rewrite Hfirst.
  rewrite scan_stays_open by exact Hstill. simpl. rewrite Hloud.
  f_equal. destruct rest as [|frame rest]; [reflexivity|].
  rewrite Hfinal by discriminate. reflexivity.
Qed.

Lemma detect_trailing (first : number * number)
    (still : list (number * number)) :
  Forall (quiet silence_threshold) (first :: still) ->
  found (first :: still)
  = emit (fst first) (default (fst first) (last (still.*1))).
Proof.
  intros Hquiet. apply Forall_cons in Hquiet as [Hfirst Hstill].
  unfold detect.
  set (final := default 0 (last ((first :: still).*1))).
  assert (Hfinal : final = default (fst first) (last (still.*1))).
  { subst final. rewrite fmap_cons, last_cons.
    destruct (last (still.*1)); reflexivity. }
  clearbody final. rewrite <- Hfinal.
  destruct first as [time level]. unfold quiet in Hfirst. simpl in Hfirst.
  simpl. rewrite Hfirst.
  rewrite <- (app_nil_r still).
  rewrite scan_stays_open by exact Hstill. reflexivity.
Qed.

(** Over frames in time order an interval of the scan ends after it
    starts, unless it is the last frame alone. *)
Lemma detect_forward (contour : list (number * number)) (s : silence) :
  time_ordered contour ->
  In s (found contour) ->
  (fst s <? snd s) = true \/ fst s = snd s.
Proof.
  intros Hordered. unfold detect.
  destruct (last (contour.*1)) as [final|] eqn:Hlast.
  - apply scan_forward; [exact Hordered| |intros start [=]].
    apply last_is_latest; assumption.
  - apply last_None in Hlast. apply fmap_nil_inv in Hlast as ->. intros [].
Qed.

(** Under a positive minimum an interval that is emitted ends after it
    starts. *)
Lemma detect_proper (contour : list (number * number)) (s : silence) :
  time_ordered contour ->
  (0 <? min_silence_duration) = true ->
  In s (found contour) ->
  (fst s <? snd s) = true.
Proof.
  intros Hordered Hpos Hin.
  destruct (detect_forward contour s Hordered Hin) as [Hlt|Heq];
    [exact Hlt|].
  apply scan_emits_long in Hin. unfold span in Hin. rewrite Heq in Hin.
  rewrite (sub_diag_below _ _ Hpos) in Hin. discriminate.
Qed.

Context `{External}.

(** What [analyze_silences] returns once the noise is reduced and the
    intensity computed. *)
Lemma analyze_silences_contour (sound : Sound) (noise_reduction : bool)
    (intensity : Intensity) :
  ((if noise_reduction then reduce_noise sound else Ok sound)
     ≫= to_intensity) = Ok intensity ->
  length (xs intensity) = length (values intensity) ->
  analyze_silences sound noise_reduction silence_threshold
    min_silence_duration
  = found (zip (xs intensity) (values intensity)).
Proof.
  intros Hcontour Hlength. unfold analyze_silences.
  pose proof (scan_silences_detect (zip (xs intensity) (values intensity)))
    as Hscan.
  rewrite fst_zip, snd_zip in Hscan by lia.
  destruct noise_reduction.
  - destruct (reduce_noise sound) as [cleaned|e]; [|discriminate].
    simpl in *. rewrite Hcontour. simpl. rewrite Hscan. reflexivity.
  - simpl in *. rewrite Hcontour. simpl. rewrite Hscan. reflexivity.
Qed.

(** Every interval [analyze_silences] returns passed the duration test, so
    its duration is a number. *)
Lemma analyze_silences_long (sound : Sound) (noise_reduction : bool)
    (s : silence) :
  In s (analyze_silences sound noise_reduction silence_threshold
          min_silence_duration) ->
  (min_silence_duration <=? span s) = true.
Proof.
  unfold analyze_silences.
  destruct (if noise_reduction then reduce_noise sound else Ok sound)
    as [cleaned|e]; [|intros []].
  simpl. destruct (to_intensity cleaned) as [intensity|e]; [|intros []].
  simpl. unfold scan_silences.
  destruct (scan_fold (zip (xs intensity) (values intensity))
              (default 0 (last (xs intensity))) [] None)
    as (silences & opened' & Hfold & Hout).
  change (fold_left step (zip (xs intensity) (values intensity)) ([], None)
          = (silences, (fun start => (start, None)) <$> opened')) in Hfold.
  revert Hfold.
  generalize (fold_left step (zip (xs intensity) (values intensity))
                ([], None)).
  intros st ->. rewrite app_nil_l in Hout.
  assert (Hlong : forall s', In s' (silences ++ match opened' with
                                            | Some start =>
                                                emit start
                                                  (default 0 (last (xs intensity)))
                                            | None => []
                                            end) ->
                             (min_silence_duration <=? span s') = true).
  { intros s' Hin. rewrite Hout in Hin. exact (scan_emits_long _ _ _ _ Hin). }
  destruct opened' as [start|]; simpl.
  - destruct (last (xs intensity)) as [stop|]; [|intros []].
    simpl in Hlong. unfold emitted in Hlong.
    destruct (min_silence_duration <=? stop - start); simpl;
      rewrite ?app_nil_r in Hlong; apply Hlong.
  - rewrite app_nil_r in Hlong. apply Hlong.
Qed.

(** C5. Over a contour in time order the detector computes the scan of the
    specification: frames at or above the threshold with nothing open are
    passed over; an interval opens at the first frame below the threshold
    and closes at the first frame at or above it, or at the last timestamp
    when the scan ends first; a closed interval is emitted exactly when its
    duration, the difference [end - start] as binary64 computes it, is at
    least the minimum duration.  The output is chronological and without
    overlap, and under a positive minimum every interval ends after it
    starts.  With the default minimum of half a second an interval of
    [0.5] s is kept and one of [0.49] s is dropped; the interval from [0.1]
    to [0.6] is kept too, its difference being rounded to [0.5]. *)
Theorem silence_detector (contour : list (number * number)) :
  time_ordered contour ->
  let run := fun c : list (number * number) =>
    scan_silences silence_threshold min_silence_duration (c.*1) (c.*2) in
  (forall c, run c = Ok (found c))
  /\ (forall noisy rest,
        contour = noisy ++ rest ->
        Forall (loud silence_threshold) noisy ->
        run contour = run rest)
  /\ (forall first still closing rest,
        contour = first :: still ++ closing :: rest ->
        Forall (quiet silence_threshold) (first :: still) ->
        loud silence_threshold closing ->
        run contour = Ok (emit (fst first) (fst closing) ++ found rest))
  /\ (forall first still,
        contour = first :: still ->
        Forall (quiet silence_threshold) (first :: still) ->
        run contour
        = Ok (emit (fst first) (default (fst first) (last (still.*1)))))
  /\ (forall start stop,
        ((min_silence_duration <=? stop - start) = true ->
         emit start stop = [(start, stop)])
        /\ ((min_silence_duration <=? stop - start) = false ->
            emit start stop = []))
  /\ (forall s, In s (found contour) ->
        (min_silence_duration <=? span s) = true)
  /\ chronological (found contour)
  /\ ((0 <? min_silence_duration) = true ->
      forall s, In s (found contour) -> (fst s <? snd s) = true)
  /\ (forall sound cleaned,
        reduce_noise sound = Ok cleaned ->
        to_intensity cleaned
        = Ok {| xs := contour.*1; values := contour.*2 |} ->
        analyze_silences sound true silence_threshold min_silence_duration
        = found contour)
  /\ (scan_silences silence_threshold_default min_silence_duration_default
        [0; 0.5] [30; 50] = Ok [(0, 0.5)]
      /\ scan_silences silence_threshold_default min_silence_duration_default
           [0; 0.49] [30; 50] = Ok []
      /\ scan_silences silence_threshold_default min_silence_duration_default
           [3; 3.25; 3.5] [30; 30; 30] = Ok [(3, 3.5)]
      /\ scan_silences silence_threshold_default min_silence_duration_default
           [3; 3.25; 3.49] [30; 30; 30] = Ok []
      /\ scan_silences silence_threshold_default min_silence_duration_default
           [0.1; 0.6] [30; 50] = Ok [(0.1, 0.6)]).
Proof.
  intros Hordered run. subst run. cbv beta.
  split; [|split; [|split; [|split; [|split; [|split; [|split; [|split;
    [|split]]]]]]]].
  - apply scan_silences_detect.
  - intros noisy rest -> Hloud.
    rewrite !scan_silences_detect, detect_skips_loud by exact Hloud.
    reflexivity.
  - intros first still closing rest -> Hquiet Hloud.
    rewrite scan_silences_detect, detect_closes by assumption. reflexivity.
  - intros first still -> Hquiet.
    rewrite scan_silences_detect, detect_trailing by assumption. reflexivity.
  - intros start stop. split; intros Htest; unfold emitted; rewrite Htest;
      reflexivity.
  - intros s. apply scan_emits_long.
  - apply scan_chronological, Hordered.
  - intros Hpos s. apply detect_proper; assumption.
  - intros sound cleaned Hclean Hcontour. unfold analyze_silences.
    rewrite Hclean. simpl. rewrite Hcontour. simpl.
    rewrite scan_silences_detect. reflexivity.
  - repeat split; reflexivity.
Qed.

End SilenceDetector.

Lemma silence_detector_witness :
  scan_silences 40 0.5 [0; 0.5; 1; 1.49] [30; 50; 30; 50] = Ok [(0, 0.5)]
  /\ SilenceSpec.chronological
       (SilenceSpec.detect 40 0.5 [(0, 30); (0.5, 50); (1, 30); (1.49, 50)]).
Proof.
  assert (Hordered : SilenceSpec.time_ordered
                       [(0, 30); (0.5, 50); (1, 30); (1.49, 50)]).
  { repeat constructor. }
  destruct (silence_detector 40 0.5 (H := Demo.collaborators [])
              [(0, 30); (0.5, 50); (1, 30); (1.49, 50)] Hordered)
    as (Hrun & _ & _ & _ & _ & _ & Hchrono & _).
  split; [|exact Hchrono].
  transitivity
    (Ok (SilenceSpec.detect 40 0.5 [(0, 30); (0.5, 50); (1, 30); (1.49, 50)]));
    [exact (Hrun [(0, 30); (0.5, 50); (1, 30); (1.49, 50)]) | reflexivity].
Defined.

(** ** Silence classification *)

(** The longest interval reaches a bound as soon as some interval does,
    when the duration of the first interval is a number. *)
Lemma longest_reaches (first : silence) (rest : list silence)
    (bound : number) (s : silence) :
  PrimFloat.is_nan (span first) = false ->
  In s (first :: rest) ->
  (bound <=? span s) = true ->
  (bound <=? max_default (map span (first :: rest)) 0) = true.
Proof.
  intros Hfirst Hin Hlong.
  apply leb_trans with (span s); [exact Hlong|].
  apply (max_default_upper (span first) (map span rest) 0 (span s));
    [exact Hfirst| |].
  - apply leb_number in Hlong as [_ Hs]. exact Hs.
  - exact (in_map span _ _ Hin).
Qed.

(** When the longest interval reaches a bound, some interval does. *)
Lemma longest_is_an_interval (first : silence) (rest : list silence)
    (bound : number) :
  (bound <=? max_default (map span (first :: rest)) 0) = true ->
  exists s, In s (first :: rest) /\ (bound <=? span s) = true.
Proof.
  intros Hmax.
  pose proof (max_default_in (span first) (map span rest) 0) as Hin.
  change (span first :: map span rest) with (map span (first :: rest)) in Hin.
  apply in_map_iff in Hin as (s & Hs & Hin).
  exists s. split; [exact Hin|]. rewrite Hs. exact Hmax.
Qed.

Section LongSilence.
Context `{External}.

(** C4. A list of intervals whose durations are numbers and one of which
    lasts at least ten seconds classifies as "silence too long" whatever
    the other checks say; so does a list with one interval of 12 s and a
    total of 20 s, which is not reported as "too much silence"; the empty
    list classifies as "normal".  (A duration is the difference
    [end - start] as binary64 computes it, and it is NaN only when a time
    is NaN or infinite: Python's [max] keeps a NaN it starts from.)  The
    intervals [analyze_silences] returns all have passed its duration
    test, so their durations are numbers: in the pipeline an interval of
    ten seconds always gives "silence too long". *)
Theorem long_silence_wins (silences : list silence) :
  Forall (fun s => PrimFloat.is_nan (span s) = false) silences ->
  (exists s, In s silences
             /\ (long_silence_threshold_default <=? span s) = true) ->
  classify_silences silences total_duration_threshold_default
    initial_delay_threshold_default long_silence_threshold_default
  = "silence too long"
  /\ (span (1, 13) = 12
      /\ sum (map span [(1, 13); (20, 28)]) = 20
      /\ classify_silences [(1, 13); (20, 28)]
           total_duration_threshold_default initial_delay_threshold_default
           long_silence_threshold_default = "silence too long")
  /\ classify_silences [] total_duration_threshold_default
       initial_delay_threshold_default long_silence_threshold_default
     = "normal"
  /\ (forall sound noise_reduction silence_threshold min_silence_duration,
        let found :=
          analyze_silences sound noise_reduction silence_threshold
            min_silence_duration in
        (exists s, In s found
                   /\ (long_silence_threshold_default <=? span s) = true) ->
        classify_silences found total_duration_threshold_default
          initial_delay_threshold_default long_silence_threshold_default
        = "silence too long").
Proof.
  intros Hnumbers (s & Hin & Hlong).
  split; [|split; [repeat split; reflexivity|split; [reflexivity|]]].
  - destruct silences as [|first rest]; [destruct Hin|].
    unfold classify_silences.
    rewrite (longest_reaches first rest _ s); [reflexivity| |exact Hin|exact Hlong].
    apply Forall_cons in Hnumbers as [Hfirst _]. exact Hfirst.
  - intros sound noise_reduction silence_threshold min_silence_duration found
      (s' & Hin' & Hlong').
    destruct found as [|first rest] eqn:Hfound; [destruct Hin'|].
    unfold classify_silences.
    rewrite (longest_reaches first rest _ s');
      [reflexivity| |exact Hin'|exact Hlong'].
    assert (Hfirst : In first found) by (rewrite Hfound; left; reflexivity).
    apply analyze_silences_long, leb_number in Hfirst as [_ Hfirst].
    exact Hfirst.
Qed.

End LongSilence.

Lemma long_silence_wins_witness :
  classify_silences [(0, 2); (5, 16)] total_duration_threshold_default
    initial_delay_threshold_default long_silence_threshold_default
  = "silence too long".
Proof.
  assert (Hnumbers : Forall (fun s => PrimFloat.is_nan (span s) = false)
                       [(0, 2); (5, 16)]).
  { repeat constructor. }
  assert (Hlong : exists s, In s [(0, 2); (5, 16)]
                            /\ (long_silence_threshold_default <=? span s)
                               = true).
  { exists (5, 16). split; [right; left; reflexivity | reflexivity]. }
  destruct (long_silence_wins (H := Demo.collaborators [])
              [(0, 2); (5, 16)] Hnumbers Hlong) as [Hverdict _].
  exact Hverdict.
Defined.

(** The "delay" verdict compares the start of the first interval, which is
    zero whenever it is used, with the threshold: under a positive threshold
    it is never returned. *)
Lemma delay_never_returned (silences : list silence)
    (total_duration initial_delay long_silence : number) :
  (0 <? initial_delay) = true ->
  classify_silences silences total_duration initial_delay long_silence
  <> "delay".
Proof.
  intros Hpos. destruct silences as [|first rest]; [discriminate|].
  unfold classify_silences.
  destruct (long_silence <=? _); [discriminate|].
  destruct (total_duration <? _); [discriminate|].
  destruct (initial_delay <=? _) eqn:E; [|discriminate].
  exfalso. destruct (fst first =? 0) eqn:E0.
  - rewrite (leb_zero _ _ E0), (ltb_not_leb _ _ Hpos) in E. discriminate.
  - rewrite (ltb_not_leb _ _ Hpos) in E. discriminate.
Qed.

(** A first interval of fifteen seconds or more is itself an interval of
    ten seconds or more: the list it opens has a longest interval of at
    least fifteen seconds. *)
Lemma first_interval_bounds_longest (first : silence) (rest : list silence) :
  (initial_delay_threshold_default <=? span first) = true ->
  (max_default (map span (first :: rest)) 0 <? long_silence_threshold_default)
  = false.
Proof.
  intros Hfirst.
  destruct (_ <? long_silence_threshold_default) eqn:Hlongest; [|reflexivity].
  assert (Hmax : (initial_delay_threshold_default
                  <=? max_default (map span (first :: rest)) 0) = true).
  { apply (longest_reaches first rest _ first);
      [|left; reflexivity|exact Hfirst].
    apply leb_number in Hfirst as [_ Hnumber]. exact Hnumber. }
  apply ltb_leb in Hlongest.
  pose proof (leb_trans _ _ _ Hmax Hlongest) as Habsurd.
  vm_compute in Habsurd. discriminate.
Qed.

(** ** Segmentation *)

(** A zero, less zero and divided by any number, is a zero or NaN, and the
    least integer above a zero is [0]. *)
Lemma zero_sub_zero (x : number) :
  (x =? 0) = true -> exists s, Prim2SF (x - 0) = S754_zero s.
Proof.
  intros Hx. apply eqb_zero in Hx as [s Hx].
  rewrite sub_spec, Hx. change (Prim2SF 0) with (S754_zero false).
  destruct s; eexists; reflexivity.
Qed.

Lemma zero_div (x y : number) (s : bool) :
  Prim2SF x = S754_zero s ->
  Prim2SF (x / y) = S754_nan \/ exists s', Prim2SF (x / y) = S754_zero s'.
Proof.
  intros Hx. rewrite div_spec, Hx.
  destruct (Prim2SF y) as [sy|sy| |sy my ey]; simpl;
    [left; reflexivity|right; eexists; reflexivity|left; reflexivity
    |right; eexists; reflexivity].
Qed.

Lemma ceil_zero (x : number) (s : bool) :
  Prim2SF x = S754_zero s -> ceil x = Some 0%Z.
Proof.
  intros Hx. unfold ceil, floor. rewrite opp_spec, Hx. reflexivity.
Qed.

Section Segmentation.
Context `{External}.


Lemma extract_some_fails (sound : Sound) (segment_length : number)
    (starts : list number) :
  Exists (fun start =>
            extractable sound start (window sound segment_length start).2
            = false) starts ->
  exists e,
    mapM (fun start_time =>
            let '(start_time, end_time) :=
              window sound segment_length start_time in
            extract_part sound start_time end_time)
         starts
    = Raise e.
Proof.
  induction 1 as [start starts Hstart|start starts _ [e IH]]; cbn [mapM].
  - change (window sound segment_length start)
      with (start, (window sound segment_length start).2) at 1.
    cbv beta iota. unfold extract_part. rewrite Hstart.
    exists LibraryError. reflexivity.
  - rewrite IH.
    change (window sound segment_length start)
      with (start, (window sound segment_length start).2) at 1.
    cbv beta iota.
    destruct (extract_part sound start _); eexists; reflexivity.
Qed.




End Segmentation.



(** ** Segment scoring *)

Section SegmentScorer.
Import ScorerSpec.
Context `{External}.

Lemma fresh_advance (k : nat) (s : state) : fresh s -> fresh (advance k s).
Proof. intros Hfresh name Hname. apply Hfresh. simpl in Hname. lia. Qed.

Lemma advance_advance (j k : nat) (s : state) :
  advance k (advance j s) = advance (j + k) s.
Proof. unfold advance. simpl. f_equal. lia. Qed.

(** With the script in place and the tool answering, [analyze_segment]
    returns the tokens of the answer and leaves no file. *)
Lemma analyze_segment_clean (segment : Segment) (sourcerun : nat)
    (path : string) (s : state) (content : string) (out : str) :
  fresh s ->
  script s = Some content ->
  run_file content segment path = Ok out ->
  analyze_segment segment sourcerun path s
  = (Ok (Some (split out)), advance 2 s).
Proof.
  intros Hfresh Hscript Htool.
  unfold analyze_segment, mbind, io_bind, read_script. rewrite Hscript.
  unfold named_temporary_file, lift, os_remove. simpl. rewrite Htool.
  rewrite lookup_insert_eq. simpl.
  rewrite lookup_delete_ne, lookup_insert_ne, lookup_insert_eq by lia.
  unfold advance. do 2 f_equal; [|lia].
  rewrite delete_insert_id.
  - apply delete_insert_id, Hfresh. lia.
  - rewrite lookup_insert_ne by lia. apply Hfresh. lia.
Qed.

(** When the tool fails, the copy of the script and the audio file that
    [analyze_segment] made both stay. *)
Lemma analyze_segment_tool_failure (segment : Segment) (sourcerun : nat)
    (path : string) (s : state) (content : string) (e : exn) :
  script s = Some content ->
  run_file content segment path = Raise e ->
  analyze_segment segment sourcerun path s
  = (Raise e,
     {| script := script s;
        temp := <[S (next s) := Wav segment]>
                  (<[next s := Text content]> (temp s));
        next := S (S (next s)) |}).
Proof.
  intros Hscript Htool. destruct s as [present files name].
  simpl in Hscript. subst present.
  unfold analyze_segment, mbind, io_bind, read_script, named_temporary_file,
    lift.
  simpl. rewrite Htool. reflexivity.
Qed.

(** Without the script [average_score] gives up at once. *)
Lemma average_score_no_script (audio : result Sound) (path : string)
    (score_index : nat) (s : state) :
  script s = None -> average_score audio path score_index s = (Ok None, s).
Proof.
  intros Hscript. unfold average_score, mbind, io_bind, read_script.
  rewrite Hscript. reflexivity.
Qed.

(** One turn of the loop on a measurement that is too short, and on one
    that is long enough. *)
Lemma score_segments_short (segment : Segment) (segments : list Segment)
    (sourcerun : nat) (path : string) (score_index : nat) (scores : list number)
    (s : state) (content : string) (out : str) :
  fresh s ->
  script s = Some content ->
  run_file content segment path = Ok out ->
  (length (split out) <= Nat.max 14 score_index)%nat ->
  score_segments (segment :: segments) sourcerun path score_index scores s
  = score_segments segments sourcerun path score_index scores (advance 2 s).
Proof.
  intros Hfresh Hscript Htool Hshort.
  simpl. unfold mbind at 1, io_bind at 1.
  rewrite (analyze_segment_clean _ _ _ _ content out) by assumption.
  apply Nat.ltb_ge in Hshort. rewrite Hshort. reflexivity.
Qed.

Lemma score_segments_long (segment : Segment) (segments : list Segment)
    (sourcerun : nat) (path : string) (score_index : nat) (scores : list number)
    (s : state) (content : string) (out token : str) (x : number) :
  fresh s ->
  script s = Some content ->
  run_file content segment path = Ok out ->
  (Nat.max 14 score_index < length (split out))%nat ->
  split out !! score_index = Some token ->
  float token = Ok x ->
  score_segments (segment :: segments) sourcerun path score_index scores s
  = score_segments segments sourcerun path score_index (scores ++ [x])
      (advance 2 s).
Proof.
  intros Hfresh Hscript Htool Hlong Htoken Hfloat.
  simpl. unfold mbind at 1, io_bind at 1.
  rewrite (analyze_segment_clean _ _ _ _ content out) by assumption.
  apply Nat.ltb_lt in Hlong. rewrite Hlong, Htoken.
  unfold mbind, io_bind, lift. rewrite Hfloat. reflexivity.
Qed.

(** The loop collects the field of the accepted measurements, in order. *)
Lemma score_segments_accepted (sourcerun : nat) (path : string)
    (score_index : nat) (content : string)
    (segments : list Segment) (outs : list str) :
  Forall2 (fun segment out => run_file content segment path = Ok out)
    segments outs ->
  forall (values scores : list number) (s : state),
  fresh s ->
  script s = Some content ->
  Forall2 (fun z2 x => exists token,
               z2 !! score_index = Some token /\ float token = Ok x)
    (accepted score_index (split <$> outs)) values ->
  score_segments segments sourcerun path score_index scores s
  = (Ok (scores ++ values), advance (2 * length segments) s).
Proof.
  induction 1 as [|segment out segments outs Htool _ IH];
    intros values scores s Hfresh Hscript Hvalues.
  - apply Forall2_nil_inv_l in Hvalues as ->. rewrite app_nil_r.
    unfold advance. simpl. destruct s. simpl. rewrite Nat.add_0_r. reflexivity.
  - rewrite fmap_cons in Hvalues. unfold accepted in Hvalues.
    simpl List.filter in Hvalues.
    destruct (Nat.max 14 score_index <? length (split out))%nat eqn:Hlen.
    + apply Forall2_cons_inv_l in Hvalues
        as (x & values' & (token & Htoken & Hfloat) & Hvalues & ->).
      apply Nat.ltb_lt in Hlen.
      rewrite (score_segments_long _ _ _ _ _ _ _ content out token x)
        by assumption.
      rewrite (IH values') by (try apply fresh_advance; assumption).
      rewrite advance_advance, <- app_assoc. simpl length.
      do 2 f_equal. lia.
    + apply Nat.ltb_ge in Hlen.
      rewrite (score_segments_short _ _ _ _ _ _ _ content out)
        by assumption.
      rewrite (IH values) by (try apply fresh_advance; assumption).
      rewrite advance_advance. simpl length. do 2 f_equal. lia.
Qed.

(** [average_score] when the sound loads and the tool answers for every
    segment: the result is the average of the field over the accepted
    measurements.  With an average the files are as before; without one the
    copy of the script made at the start is still there. *)
Lemma average_score_accepted (sound : Sound) (path : string)
    (score_index : nat) (s : state) (content : string)
    (outs : list str) (values : list number) :
  fresh s ->
  script s = Some content ->
  Forall2 (fun segment out => run_file content segment path = Ok out)
    (segment_audio sound segment_length_default) outs ->
  Forall2 (fun z2 x => exists token,
               z2 !! score_index = Some token /\ float token = Ok x)
    (accepted score_index (split <$> outs)) values ->
  average_score (Ok sound) path score_index s
  = (Ok (average values),
     match values with
     | [] => {| script := script s;
                temp := <[next s := Text content]> (temp s);
                next := S (next s) + 2 * length outs |}
     | _ => advance (1 + 2 * length outs) s
     end).
Proof.
  intros Hfresh Hscript Htools Hvalues.
  pose proof (Forall2_length _ _ _ Htools) as Hlength.
  destruct s as [present files name]. simpl in Hscript. subst present.
  unfold average_score, mbind at 1, io_bind at 1, read_script.
  cbn [script].
  unfold mbind at 1, io_bind at 1, named_temporary_file. cbn [temp next script].
  unfold mbind at 1, io_bind at 1, lift at 1.
  unfold mbind at 1, io_bind at 1.
  rewrite (score_segments_accepted name path score_index content _ outs
             Htools values []); [| |reflexivity|exact Hvalues].
  - rewrite app_nil_l, Hlength. unfold advance, average. cbn [temp next script].
    destruct values as [|x values]; [reflexivity|].
    unfold mbind, io_bind, os_remove, mret, io_ret. cbn [temp next script].
    rewrite lookup_insert_eq, delete_insert_id by (apply Hfresh; simpl; lia).
    do 2 f_equal. lia.
  - intros other Hother. simpl in *.
    rewrite lookup_insert_ne by lia. apply Hfresh. simpl. lia.
Qed.

(** C6. When the script is in place and the tool answers for every
    segment, [average_score] is [np.mean] of the field over the
    measurements that have more than [max(14, score_index)] tokens: each of
    those gives one sample and the shorter ones give none, without an
    error.  The tokens are the runs of characters between white space, that
    of Unicode included.  A list of ten tokens is left out for the
    pronunciation index 14, alone (the result is then [None]) or among
    longer ones, and without the script the whole operation returns
    [None]. *)
Theorem accepted_measurements_averaged (sound : Sound) (path : string)
    (score_index : nat) (s : state) (content : string)
    (outs : list str) (values : list number) :
  fresh s ->
  script s = Some content ->
  Forall2 (fun segment out => run_file content segment path = Ok out)
    (segment_audio sound segment_length_default) outs ->
  Forall2 (fun z2 x => exists token,
               z2 !! score_index = Some token /\ float token = Ok x)
    (accepted score_index (split <$> outs)) values ->
  (average_score (Ok sound) path score_index s).1 = Ok (average values)
  /\ (forall z2,
        In z2 (accepted score_index (split <$> outs))
        <-> In z2 (split <$> outs)
            /\ (Nat.max 14 score_index < length z2)%nat)
  /\ length values = length (accepted score_index (split <$> outs))
  /\ (forall audio s0,
        script s0 = None ->
        average_score audio path score_index s0 = (Ok None, s0))
  /\ (split (chars "a" ++ [160%N] ++ chars "b c" ++ [8195%N])
      = [chars "a"; chars "b"; chars "c"]
      /\ length (split Demo.truncated_output) = 10%nat
      /\ accepted 14 [split Demo.truncated_output] = []
      /\ (average_score (H := Demo.collaborators [Ok Demo.truncated_output])
            (Ok (Demo.clip 10)) "" 14 Demo.disk).1 = Ok None
      /\ (exists found,
            (average_score
               (H := Demo.collaborators
                       [Ok Demo.full_output; Ok Demo.truncated_output;
                        Ok Demo.full_output])
               (Ok (Demo.clip 40)) "" 14 Demo.disk).1 = Ok (Some found)
            /\ found = 0.8)
      /\ (average_score (H := Demo.collaborators [Ok Demo.full_output])
            (Ok (Demo.clip 10)) "" 14 Demo.bare_disk).1 = Ok None).
Proof.
  intros Hfresh Hscript Htools Hvalues.
  split; [|split; [|split; [|split]]].
  - rewrite (average_score_accepted sound path score_index s content outs
               values) by assumption.
    reflexivity.
  - intros z2. unfold accepted. rewrite filter_In, Nat.ltb_lt. reflexivity.
  - symmetry. apply (Forall2_length _ _ _ Hvalues).
  - intros audio s0. apply average_score_no_script.
  - split; [reflexivity|].
    split; [reflexivity|]. split; [reflexivity|]. split; [reflexivity|].
    split; [|reflexivity].
    eexists. split; vm_compute; reflexivity.
Qed.

End SegmentScorer.

Lemma accepted_measurements_averaged_witness :
  (average_score (H := Demo.mixed_answers) (Ok (Demo.clip 40)) "" 14
     Demo.disk).1
  = Ok (ScorerSpec.average (H := Demo.mixed_answers) [0.8; 0.8]).
Proof.
  assert (Hfresh : fresh Demo.disk) by (intros name _; reflexivity).
  assert (Htools :
            Forall2 (fun segment out =>
                       run_file (External := Demo.mixed_answers)
                         "form" segment "" = Ok out)
              (segment_audio (H := Demo.mixed_answers) (Demo.clip 40)
                 segment_length_default)
              [Demo.full_output; Demo.truncated_output; Demo.full_output]).
  { repeat constructor. }
  assert (Hvalues :
            Forall2 (fun z2 x => exists token,
                         z2 !! 14%nat = Some token
                         /\ Demo.decimal token = Ok x)
              (ScorerSpec.accepted 14
                 (split <$> [Demo.full_output; Demo.truncated_output;
                             Demo.full_output]))
              [0.8; 0.8]).
  { repeat (constructor; [eexists; split; reflexivity|]). constructor. }
  destruct (accepted_measurements_averaged (H := Demo.mixed_answers)
              (Demo.clip 40) "" 14 Demo.disk "form"
              [Demo.full_output; Demo.truncated_output; Demo.full_output]
              [0.8; 0.8] Hfresh eq_refl Htools Hvalues)
    as [Haverage _].
  exact Haverage.
Defined.

(** ** Temporary files *)

(** C9, evaluated: the runs of [average_score] that end without a score or
    with a failure of the tool leave temporary files behind.  When the one
    segment of a ten-second sound yields ten tokens, the result is [None]
    and the copy of the script made by [average_score] still exists; when
    the tool fails on that segment, that copy, the copy made by
    [analyze_segment] and the audio file of the segment all still exist.
    Only the run that ends with an average removes every file it made. *)
Theorem temporary_files_left_behind :
  (let run :=
     average_score (H := Demo.collaborators [Ok Demo.truncated_output])
       (Ok (Demo.clip 10)) "" 14 Demo.disk in
   run.1 = Ok None
   /\ temp run.2 = {[ 0%nat := Text "form" ]}
   /\ dom (temp run.2) = ({[ 0%nat ]} : gset nat))
  /\ (let run :=
        average_score (H := Demo.collaborators [Raise LibraryError])
          (Ok (Demo.clip 10)) "" 14 Demo.disk in
      run.1 = Raise LibraryError
      /\ temp run.2 !! 0%nat = Some (Text "form")
      /\ temp run.2 !! 1%nat = Some (Text "form")
      /\ (exists segment, temp run.2 !! 2%nat = Some (Wav segment))
      /\ dom (temp run.2) = ({[ 0%nat; 1%nat; 2%nat ]} : gset nat))
  /\ (let run :=
        average_score (H := Demo.collaborators [Ok Demo.full_output])
          (Ok (Demo.clip 10)) "" 14 Demo.disk in
      run.1 = Ok (Some 0.8)
      /\ temp run.2 = ∅).
Proof.
  split; [|split].
  - repeat split; vm_compute; reflexivity.
  - split; [vm_compute; reflexivity|]. split; [vm_compute; reflexivity|].
    split; [vm_compute; reflexivity|].
    split; [eexists|]; vm_compute; reflexivity.
  - split; vm_compute; reflexivity.
Qed.

(** ** Pitch analysis *)



Section PitchAnalyzer.
Context `{External}.


(** A file that cannot be read, an array without a first channel and a
    pitch tracker that fails all end in [None]. *)
Lemma analyze_pitch_failure (sr : Z) (sound_values : ndarray sample)
    (frames : list sample) (e : exn) :
  analyze_pitch (Raise e) = None
  /\ (downmix sound_values = Raise e ->
      analyze_pitch (Ok (sr, sound_values)) = None)
  /\ (downmix sound_values = Ok frames ->
      to_pitch frames sr = Raise e ->
      analyze_pitch (Ok (sr, sound_values)) = None).
Proof.
  unfold analyze_pitch. split; [reflexivity|]. split.
  - intros Hmix. simpl. rewrite Hmix. reflexivity.
  - intros Hmix Htrack. simpl. rewrite Hmix. simpl. rewrite Htrack.
    reflexivity.
Qed.

Lemma first_channel_heads (rows : list (list sample)) :
  first_channel rows
  = mapM (fun first => match first with
                       | Some x => Ok x
                       | None => Raise IndexError
                       end) (head <$> rows).
Proof.
  unfold first_channel.
  induction rows as [|row rows IH]; [reflexivity|].
  simpl. rewrite IH. destruct row; reflexivity.
Qed.

(** C10. Two multi-channel inputs with the same sample rate whose frames
    agree on channel 0 get the same pitch analysis. *)
Theorem pitch_reads_first_channel (sr : Z) (rows rows' : list (list sample)) :
  head <$> rows = head <$> rows' ->
  analyze_pitch (Ok (sr, Channels rows))
  = analyze_pitch (Ok (sr, Channels rows')).
Proof.
  intros Hagree. unfold analyze_pitch. simpl.
  rewrite !first_channel_heads, Hagree. reflexivity.
Qed.

End PitchAnalyzer.

Lemma pitch_reads_first_channel_witness :
  analyze_pitch (H := Demo.collaborators [])
    (Ok (44100%Z, Channels [[100%Z; 1%Z]; [140%Z; 2%Z]]))
  = analyze_pitch (H := Demo.collaborators [])
      (Ok (44100%Z, Channels [[100%Z; 7%Z]; [140%Z; 9%Z]])).
Proof.
  apply (pitch_reads_first_channel (H := Demo.collaborators [])).
  reflexivity.
Defined.

(** ** Aggregation of the report *)

(** Under the default thresholds the verdict is one of three. *)
Lemma classify_silences_labels (silences : list silence) :
  In (classify_silences silences total_duration_threshold_default
        initial_delay_threshold_default long_silence_threshold_default)
     ["normal"; "silence too long"; "too much silence"].
Proof.
  pose proof (delay_never_returned silences total_duration_threshold_default
                initial_delay_threshold_default
                long_silence_threshold_default eq_refl) as Hdelay.
  revert Hdelay. unfold classify_silences.
  destruct silences as [|first rest]; [simpl; tauto|].
  destruct (long_silence_threshold_default <=? _); [simpl; tauto|].
  destruct (total_duration_threshold_default <? _); [simpl; tauto|].
  destruct (initial_delay_threshold_default <=? _); [|simpl; tauto].
  intros Hdelay. contradiction Hdelay. reflexivity.
Qed.

Section Aggregation.
Import Endpoint.
Context `{External}.

(** An average that is [None] breaks the sum of the positive criteria. *)
Lemma none_breaks_the_sum (pitch_result volume_result silence_result : string)
    (score : number) (other : option number) :
  positive_criteria_count pitch_result volume_result silence_result
    None other = Raise TypeError
  /\ positive_criteria_count pitch_result volume_result silence_result
       (Some score) None = Raise TypeError.
Proof. split; reflexivity. Qed.

(** When one of the two averages is [None] the report is the initial one,
    whatever the other analyzers found. *)
Lemma perform_analysis_aborts (wav : result (Z * ndarray sample))
    (sound : Sound) (path : string) (s s1 s2 : state)
    (volume_result : string)
    (pronunciation_score articulation_rate : option number) :
  analyze_volume sound = Ok volume_result ->
  average_score (Ok sound) path 14 s = (Ok pronunciation_score, s1) ->
  average_score (Ok sound) path 3 s1 = (Ok articulation_rate, s2) ->
  pronunciation_score = None \/ articulation_rate = None ->
  perform_analysis wav (Ok sound) path s = (Ok initial_results, s2).
Proof.
  intros Hvolume Hpron Hart Hnone.
  unfold perform_analysis, analysis, mbind, io_bind, lift.
  rewrite Hvolume, Hpron, Hart.
  destruct Hnone as [-> | ->]; [reflexivity|].
  destruct pronunciation_score; reflexivity.
Qed.

Lemma classify_speaker_labels (std_dev : option number) :
  In (classify_speaker std_dev) ["Balanced"; "Unbalanced"; "Unknown"].
Proof.
  unfold classify_speaker. destruct std_dev as [v|]; [|simpl; tauto].
  destruct (_ && _); simpl; tauto.
Qed.

Lemma analyze_volume_labels (snd : Sound) (label : string) :
  analyze_volume snd = Ok label ->
  In label ["Volume too low"; "Volume too loud"; "Volume is ideal";
            "Unknown volume"].
Proof.
  unfold analyze_volume. destruct (to_intensity snd) as [intensity|];
    [|discriminate].
  simpl. destruct (0 <? length (values intensity))%nat.
  - destruct (_ <? low_threshold); [intros [= <-]; simpl; tauto|].
    destruct (high_threshold <? _); intros [= <-]; simpl; tauto.
  - intros [= <-]. simpl. tauto.
Qed.

(** The two ways [perform_analysis] ends: with the initial report, or with
    every entry replaced.  A pitch analysis without result is reported as
    "Error: Pitch analysis failed": [classify_speaker] is not asked. *)
Lemma perform_analysis_outcome (wav : result (Z * ndarray sample))
    (audio : result Sound) (path : string) (s : state) :
  (exists s', perform_analysis wav audio path s = (Ok initial_results, s'))
  \/ (exists s' pitch_result volume_result silence_result pronunciation
             articulation overall,
        perform_analysis wav audio path s
        = (Ok ({[ "pitch" := Characteristic pitch_result;
                  "volume" := Characteristic volume_result;
                  "silence" := Characteristic silence_result;
                  "pronunciation" := Score (Some pronunciation);
                  "articulation" := Rate (Some articulation);
                  "overall_score" := Score (Some overall) ]}
               ∪ initial_results), s')
        /\ In pitch_result
             ["Balanced"; "Unbalanced"; "Error: Pitch analysis failed"]
        /\ In volume_result
             ["Volume too low"; "Volume too loud"; "Volume is ideal";
              "Unknown volume"]
        /\ In silence_result
             ["normal"; "silence too long"; "too much silence"]
        /\ (analyze_pitch wav = None ->
            pitch_result = "Error: Pitch analysis failed")
        /\ (forall v, analyze_pitch wav = Some {[ "pitch" := v ]} ->
                      pitch_result = classify_speaker (Some v))).
Proof.
  unfold perform_analysis, analysis, mbind, io_bind, lift.
  destruct audio as [sound|e]; [|left; eexists; reflexivity].
  destruct (analyze_volume sound) as [volume_result|e] eqn:Hvolume;
    [|left; eexists; reflexivity].
  destruct (average_score (Ok sound) path 14 s) as [[pron|e] s1];
    [|left; eexists; reflexivity].
  destruct (average_score (Ok sound) path 3 s1) as [[art|e] s2];
    [|left; eexists; reflexivity].
  destruct pron as [pronunciation|]; [|left; eexists; reflexivity].
  destruct art as [articulation|]; [|left; eexists; reflexivity].
  right. cbn [positive_criteria_count mul ge mbind result_bind mret
                result_ret io_ret].
  do 7 eexists. split; [reflexivity|]. split; [|split; [|split; [|split]]].
  - destruct (analyze_pitch wav) as [d|]; [|simpl; tauto].
    destruct (bool_decide (d ≠ ∅) && bool_decide (is_Some (d !! "pitch")))
      eqn:Hkey; [|simpl; tauto].
    apply andb_true_iff in Hkey as [_ Hkey].
    apply bool_decide_eq_true in Hkey as [v Hv]. rewrite Hv.
    unfold classify_speaker. destruct (_ && _); simpl; tauto.
  - apply (analyze_volume_labels sound). exact Hvolume.
  - apply classify_silences_labels.
  - intros ->. reflexivity.
  - intros v ->.
    rewrite bool_decide_eq_true_2 by (apply insert_non_empty).
    rewrite lookup_singleton_eq. reflexivity.
Qed.




(** X11. The labels a report can carry.  The pitch is "Balanced",
    "Unbalanced", "Error: Pitch analysis failed" or the initial
    "Error: Analysis failed", and never the "Unknown" of
    [classify_speaker]; the volume is one of the four labels of
    [analyze_volume] or the initial one; the silence pattern is "normal",
    "silence too long", "too much silence" or the initial one, and never
    "delay". *)
Theorem report_labels (wav : result (Z * ndarray sample))
    (audio : result Sound) (path : string) (s : state) :
  exists report s' pitch_result volume_result silence_result,
    perform_analysis wav audio path s = (Ok report, s')
    /\ report !! "pitch" = Some (Characteristic pitch_result)
    /\ report !! "volume" = Some (Characteristic volume_result)
    /\ report !! "silence" = Some (Characteristic silence_result)
    /\ In pitch_result
         ["Balanced"; "Unbalanced"; "Error: Pitch analysis failed";
          "Error: Analysis failed"]
    /\ In volume_result
         ["Volume too low"; "Volume too loud"; "Volume is ideal";
          "Unknown volume"; "Error: Analysis failed"]
    /\ In silence_result
         ["normal"; "silence too long"; "too much silence";
          "Error: Analysis failed"]
    /\ pitch_result <> "Unknown"
    /\ silence_result <> "delay".
Proof.
  destruct (perform_analysis_outcome wav audio path s)
    as [[s' Hrun] | (s' & pitch_result & volume_result & silence_result
                     & pronunciation & articulation & overall & Hrun
                     & Hpitch & Hvolume & Hsilence & _)];
    rewrite Hrun.
  - exists initial_results, s', "Error: Analysis failed",
      "Error: Analysis failed", "Error: Analysis failed".
    split; [reflexivity|]. do 3 (split; [vm_compute; reflexivity|]).
    simpl. repeat split; try tauto; discriminate.
  - do 2 eexists. exists pitch_result, volume_result, silence_result.
    split; [reflexivity|]. do 3 (split; [vm_compute; reflexivity|]).
    simpl in *.
    split; [tauto|]. split; [tauto|]. split; [tauto|].
    split.
    + destruct Hpitch as [<-|[<-|[<-|[]]]]; discriminate.
    + destruct Hsilence as [<-|[<-|[<-|[]]]]; discriminate.
Qed.

(** X12. When the sound cannot be loaded, or when its intensity cannot be
    computed, [perform_analysis] returns the initial report and leaves the
    file system as it found it, whatever the pitch analysis gave. *)
Theorem analysis_abandoned_without_intensity
    (wav : result (Z * ndarray sample)) (audio : result Sound)
    (path : string) (s : state) (e : exn) :
  (audio ≫= analyze_volume) = Raise e ->
  perform_analysis wav audio path s = (Ok initial_results, s).
Proof.
  intros Hfail. unfold perform_analysis, analysis, mbind, io_bind, lift.
  destruct audio as [sound|e']; [|reflexivity].
  simpl in Hfail. rewrite Hfail. reflexivity.
Qed.

End Aggregation.



Lemma analysis_abandoned_without_intensity_witness :
  perform_analysis (H := Demo.collaborators [Ok Demo.full_output])
    (Ok (44100%Z, Mono [100%Z; 140%Z])) (Ok (Demo.mute 10)) "" Demo.disk
  = (Ok initial_results, Demo.disk).
Proof.
  apply (analysis_abandoned_without_intensity
           (H := Demo.collaborators [Ok Demo.full_output])
           (Ok (44100%Z, Mono [100%Z; 140%Z])) (Ok (Demo.mute 10)) ""
           Demo.disk LibraryError).
  reflexivity.
Defined.

(** C2, evaluated.  A ten-second sound with a balanced pitch, an ideal
    volume and no silence, whose one measurement has ten tokens: both
    averages are [None], the sum of the positive criteria raises
    [TypeError], and the report returned is the initial one, in which the
    pitch, the volume and the silence pattern all read
    "Error: Analysis failed". *)
Theorem missing_average_aborts_analysis :
  (average_score (H := Demo.collaborators [Ok Demo.truncated_output])
     (Ok (Demo.clip 10)) "" 14 Demo.disk).1 = Ok None
  /\ positive_criteria_count "Balanced" "Volume is ideal" "normal"
       None (Some 4) = Raise TypeError
  /\ positive_criteria_count "Balanced" "Volume is ideal" "normal"
       (Some 0.8) None = Raise TypeError
  /\ classify_speaker
       (d ← analyze_pitch (H := Demo.collaborators [Ok Demo.truncated_output])
              (Ok (44100%Z, Mono [100%Z; 140%Z]));
        d !! "pitch") = "Balanced"
  /\ analyze_volume (H := Demo.collaborators [Ok Demo.truncated_output])
       (Demo.clip 10) = Ok "Volume is ideal"
  /\ classify_silences
       (analyze_silences (H := Demo.collaborators [Ok Demo.truncated_output])
          (Demo.clip 10) true silence_threshold_default
          min_silence_duration_default)
       total_duration_threshold_default initial_delay_threshold_default
       long_silence_threshold_default = "normal"
  /\ (perform_analysis (H := Demo.collaborators [Ok Demo.truncated_output])
        (Ok (44100%Z, Mono [100%Z; 140%Z])) (Ok (Demo.clip 10)) ""
        Demo.disk).1 = Ok initial_results
  /\ initial_results !! "pitch" = Some (Characteristic "Error: Analysis failed")
  /\ initial_results !! "volume" = Some (Characteristic "Error: Analysis failed")
  /\ initial_results !! "silence"
     = Some (Characteristic "Error: Analysis failed").
Proof.
  split; [vm_compute; reflexivity|].
  split; [reflexivity|]. split; [reflexivity|].
  split; [vm_compute; reflexivity|].
  split; [reflexivity|]. split; [reflexivity|].
  split; [|repeat split; reflexivity].
  erewrite (perform_analysis_aborts
              (H := Demo.collaborators [Ok Demo.truncated_output]));
    [reflexivity | reflexivity | vm_compute; reflexivity
    | vm_compute; reflexivity | left; reflexivity].
Qed.

(** * Further properties of the code *)

(** ** The verdicts of the silence classifier *)

(** X1. Under a positive threshold for the initial delay the verdict is
    never "delay", whatever the intervals and the two other thresholds: the
    code compares with that threshold a start time it has just found to be
    zero.  The verdict is "silence too long" only when some interval has a
    duration of at least the threshold for a long silence, "normal" for the
    empty list, and always one of "normal", "silence too long" and "too
    much silence". *)
Theorem silence_verdicts (silences : list silence)
    (total_duration_threshold initial_delay_threshold
       long_silence_threshold : number) :
  (0 <? initial_delay_threshold) = true ->
  let verdict :=
    classify_silences silences total_duration_threshold
      initial_delay_threshold long_silence_threshold in
  verdict <> "delay"
  /\ In verdict ["normal"; "silence too long"; "too much silence"]
  /\ (verdict = "silence too long" ->
      exists s, In s silences /\ (long_silence_threshold <=? span s) = true)
  /\ (silences = [] -> verdict = "normal").
Proof.
  intros Hpos verdict.
  pose proof (delay_never_returned silences total_duration_threshold
                initial_delay_threshold long_silence_threshold Hpos)
    as Hdelay.
  fold verdict in Hdelay. split; [exact Hdelay|].
  split; [|split].
  - revert Hdelay. subst verdict. unfold classify_silences.
    destruct silences as [|first rest]; [simpl; tauto|].
    destruct (long_silence_threshold <=? _); [simpl; tauto|].
    destruct (total_duration_threshold <? _); [simpl; tauto|].
    destruct (initial_delay_threshold <=? _); [|simpl; tauto].
    intros Hdelay. contradiction Hdelay. reflexivity.
  - subst verdict. unfold classify_silences.
    destruct silences as [|first rest]; [discriminate|].
    destruct (long_silence_threshold <=? _) eqn:Hlong.
    + intros _. apply longest_is_an_interval. exact Hlong.
    + destruct (total_duration_threshold <? _); [discriminate|].
      destruct (initial_delay_threshold <=? _); discriminate.
  - intros ->. reflexivity.
Qed.

Lemma silence_verdicts_witness :
  classify_silences [(0, 16)] 20 15 20 <> "delay"
  /\ classify_silences [(0, 16)] 20 15 20 = "normal".
Proof.
  split; [|reflexivity].
  destruct (silence_verdicts [(0, 16)] 20 15 20 eq_refl) as [Hdelay _].
  exact Hdelay.
Defined.

(** ** The silences of a sound *)

Section SilenceBounds.
Import SilenceSpec.
Variables silence_threshold min_silence_duration : number.
Context `{External}.

(** X3. The silences reported for a sound whose frames are in time order
    start and end at frame times of the contour, pass the duration test,
    and come in time order without overlap, each over before the next
    begins; none ends before it starts, and under a positive minimum each
    ends after it starts. *)
Theorem silences_within_contour (sound : Sound) (noise_reduction : bool)
    (intensity : Intensity) :
  ((if noise_reduction then reduce_noise sound else Ok sound)
     ≫= to_intensity) = Ok intensity ->
  length (xs intensity) = length (values intensity) ->
  StronglySorted (fun t t' => (t <? t') = true) (xs intensity) ->
  let found :=
    analyze_silences sound noise_reduction silence_threshold
      min_silence_duration in
  (forall s, In s found ->
     In (fst s) (xs intensity) /\ In (snd s) (xs intensity)
     /\ ((fst s <? snd s) = true \/ fst s = snd s)
     /\ (min_silence_duration <=? span s) = true)
  /\ chronological found
  /\ ((0 <? min_silence_duration) = true ->
      forall s, In s found -> (fst s <? snd s) = true).
Proof.
  intros Hcontour Hlength Hsorted found. subst found.
  rewrite (analyze_silences_contour silence_threshold min_silence_duration
             sound noise_reduction intensity Hcontour Hlength).
  set (contour := zip (xs intensity) (values intensity)).
  assert (Htimes : contour.*1 = xs intensity)
    by (apply fst_zip; lia).
  assert (Hordered : time_ordered contour)
    by (unfold time_ordered; rewrite Htimes; exact Hsorted).
  split; [|split].
  - intros s Hin.
    split; [|split; [|split]].
    + unfold detect in Hin. apply scan_starts in Hin as [Hopen|Hstart];
        [discriminate|].
      rewrite <- Htimes. exact Hstart.
    + pose proof Hin as Hstop. unfold detect in Hstop.
      apply scan_stops in Hstop as [Hfinal|Hstop].
      * rewrite Hfinal, <- Htimes.
        destruct (last (contour.*1)) as [final|] eqn:Hlast.
        -- apply list_elem_of_In, last_Some_elem_of, Hlast.
        -- apply last_None, fmap_nil_inv in Hlast.
           rewrite Hlast in Hin. destruct Hin.
      * rewrite <- Htimes. exact Hstop.
    + exact (detect_forward silence_threshold min_silence_duration
               contour s Hordered Hin).
    + exact (scan_emits_long silence_threshold min_silence_duration
               _ _ _ _ Hin).
  - apply scan_chronological, Hordered.
  - intros Hpos s.
    exact (detect_proper silence_threshold min_silence_duration contour s
             Hordered Hpos).
Qed.

(** X5. When the contour cannot be computed (the noise reduction or the
    intensity analysis raises) [analyze_silences] returns no silence, and
    the verdict on the sound is "normal". *)
Theorem silence_detection_fails_quietly (sound : Sound)
    (noise_reduction : bool) (e : exn) :
  ((if noise_reduction then reduce_noise sound else Ok sound)
     ≫= to_intensity) = Raise e ->
  analyze_silences sound noise_reduction silence_threshold
    min_silence_duration = []
  /\ classify_silences
       (analyze_silences sound noise_reduction silence_threshold
          min_silence_duration)
       total_duration_threshold_default initial_delay_threshold_default
       long_silence_threshold_default
     = "normal".
Proof.
  intros Hfail.
  assert (Hnone : analyze_silences sound noise_reduction silence_threshold
                    min_silence_duration = []).
  { unfold analyze_silences.
    destruct (if noise_reduction then reduce_noise sound else Ok sound)
      as [processed|e']; [|reflexivity].
    simpl in *. rewrite Hfail. reflexivity. }
  rewrite Hnone. split; reflexivity.
Qed.

End SilenceBounds.

Lemma silences_within_contour_witness :
  SilenceSpec.chronological
    (analyze_silences (H := Demo.collaborators []) Demo.speech true 40 0.5)
  /\ analyze_silences (H := Demo.collaborators []) Demo.speech true 40 0.5
     = [(3, 6); (10, 11)].
Proof.
  assert (Hsorted : StronglySorted (fun t t' => (t <? t') = true)
                      [0; 1; 2; 3; 4; 5; 6; 7; 8; 9; 10; 11]).
  { repeat (constructor; [|repeat (constructor; [reflexivity|]); constructor]).
    constructor. }
  destruct (silences_within_contour 40 0.5 (H := Demo.collaborators [])
              Demo.speech true
              {| xs := [0; 1; 2; 3; 4; 5; 6; 7; 8; 9; 10; 11];
                 values := [60; 62; 61; 20; 22; 21; 63; 60; 59; 61; 25; 24] |}
              eq_refl eq_refl Hsorted)
    as (_ & Hchrono & _).
  split; [exact Hchrono|reflexivity].
Defined.

Lemma silence_detection_fails_quietly_witness :
  analyze_silences (H := Demo.broken) (Demo.clip 10) true 40 0.5 = [].
Proof.
  destruct (silence_detection_fails_quietly 40 0.5 (H := Demo.broken)
              (Demo.clip 10) true LibraryError eq_refl) as [Hnone _].
  exact Hnone.
Defined.

(** ** The edges of the segmenter *)

Lemma nan_sub (x y : number) :
  PrimFloat.is_nan x = true -> Prim2SF (x - y) = S754_nan.
Proof.
  intros Hx. apply is_nan_spec in Hx. rewrite sub_spec, Hx. reflexivity.
Qed.

Lemma nan_div_l (x y : number) :
  Prim2SF x = S754_nan -> PrimFloat.is_nan (x / y) = true.
Proof.
  intros Hx. apply is_nan_spec. rewrite div_spec, Hx. reflexivity.
Qed.

Lemma nan_div_r (x y : number) :
  PrimFloat.is_nan y = true -> PrimFloat.is_nan (x / y) = true.
Proof.
  intros Hy. apply is_nan_spec in Hy. apply is_nan_spec.
  rewrite div_spec, Hy. unfold SF64div, SFdiv.
  destruct (Prim2SF x); reflexivity.
Qed.

(** An infinite duration gives a length that is infinite or NaN. *)
Lemma infinity_sub_div (x y : number) :
  (x =? infinity) = true ->
  PrimFloat.is_nan ((x - 0) / y) = true \/ ceil ((x - 0) / y) = None.
Proof.
  rewrite FloatAxioms.eqb_spec.
  change (Prim2SF infinity) with (S754_infinity false). intros Hx.
  assert (Hinf : Prim2SF (x - 0) = S754_infinity false).
  { rewrite sub_spec. change (Prim2SF 0) with (S754_zero false).
    destruct (Prim2SF x) as [s|s| |s m e]; try discriminate;
      destruct s; try discriminate; reflexivity. }
  destruct (Prim2SF y) as [sy|sy| |sy my ey] eqn:Hy.
  - right. unfold ceil, floor. rewrite opp_spec, div_spec, Hinf, Hy.
    reflexivity.
  - left. apply is_nan_spec. rewrite div_spec, Hinf, Hy. reflexivity.
  - left. apply is_nan_spec. rewrite div_spec, Hinf, Hy. reflexivity.
  - right. unfold ceil, floor. rewrite opp_spec, div_spec, Hinf, Hy.
    reflexivity.
Qed.

Section SegmenterEdges.
Context `{External}.

(** X6. [segment_audio] swallows every exception and answers with the
    empty list: for a window length of zero, whose division raises; for a
    duration or a window length that is NaN and for an infinite duration,
    for which [np.arange] cannot compute a length; for an array of start
    times that cannot be allocated; and for a window that Praat cannot
    extract, the segments extracted before it being dropped.  A duration
    of zero gives the empty list as well. *)
Theorem segment_audio_edges (sound : Sound) (segment_length : number) :
  ((segment_length =? 0) = true -> segment_audio sound segment_length = [])
  /\ (PrimFloat.is_nan (duration sound) = true ->
      segment_audio sound segment_length = [])
  /\ (PrimFloat.is_nan segment_length = true ->
      segment_audio sound segment_length = [])
  /\ ((duration sound =? infinity) = true ->
      segment_audio sound segment_length = [])
  /\ ((duration sound =? 0) = true -> segment_audio sound segment_length = [])
  /\ (forall e, arange 0 (duration sound) segment_length = Raise e ->
                segment_audio sound segment_length = [])
  /\ (forall n, ceil ((duration sound - 0) / segment_length) = Some n ->
                allocates n = false ->
                segment_audio sound segment_length = [])
  /\ (forall starts start,
        arange 0 (duration sound) segment_length = Ok starts ->
        In start starts ->
        extractable sound start (window sound segment_length start).2
        = false ->
        segment_audio sound segment_length = []).
Proof.
  assert (Hraise : forall e,
             arange 0 (duration sound) segment_length = Raise e ->
             segment_audio sound segment_length = []).
  { intros e Hfail. unfold segment_audio. rewrite Hfail. reflexivity. }
  assert (Hnan : PrimFloat.is_nan
                   ((duration sound - 0) / segment_length) = true ->
                 segment_audio sound segment_length = []).
  { intros Hvalue. unfold segment_audio, arange. rewrite Hvalue.
    destruct (segment_length =? 0); reflexivity. }
  split; [|split; [|split; [|split; [|split; [|split; [|split]]]]]].
  - intros Hzero. unfold segment_audio, arange. rewrite Hzero. reflexivity.
  - intros Hd. apply Hnan, nan_div_l, nan_sub, Hd.
  - intros HL. apply Hnan, nan_div_r, HL.
  - intros Hinf.
    destruct (infinity_sub_div _ segment_length Hinf) as [Hvalue|Hceil];
      [apply Hnan, Hvalue|].
    unfold segment_audio, arange. rewrite Hceil.
    destruct (segment_length =? 0), (PrimFloat.is_nan _); reflexivity.
  - intros Hzero. destruct (zero_sub_zero _ Hzero) as [s Hsub].
    destruct (zero_div _ segment_length _ Hsub) as [Hvalue|[s' Hdiv]].
    + apply Hnan, is_nan_spec, Hvalue.
    + unfold segment_audio, arange. rewrite (ceil_zero _ _ Hdiv).
      destruct (segment_length =? 0), (PrimFloat.is_nan _); reflexivity.
  - exact Hraise.
  - intros n Hceil Hmemory. unfold segment_audio, arange.
    rewrite Hceil, Hmemory.
    destruct (segment_length =? 0), (PrimFloat.is_nan _),
      ((n <? - 2 ^ 63)%Z || (2 ^ 63 <=? n)%Z), (n <=? 0)%Z; reflexivity.
  - intros starts start Hstarts Hin Hfail. unfold segment_audio.
    rewrite Hstarts. cbn [mbind result_bind].
    destruct (extract_some_fails sound segment_length starts) as [e ->];
      [|reflexivity].
    apply Exists_exists. exists start. split; [|exact Hfail].
    apply list_elem_of_In, Hin.
Qed.

End SegmenterEdges.

Lemma segment_audio_edges_witness :
  segment_audio (H := Demo.collaborators []) (Demo.clip 40) 0 = []
  /\ segment_audio (H := Demo.collaborators []) (Demo.clip infinity) 15 = []
  /\ segment_audio (H := Demo.collaborators []) Demo.sparse 0.25 = [].
Proof.
  destruct (segment_audio_edges (H := Demo.collaborators []) (Demo.clip 40) 0)
    as (Hzero & _).
  destruct (segment_audio_edges (H := Demo.collaborators [])
              (Demo.clip infinity) 15) as (_ & _ & _ & Hinf & _).
  destruct (segment_audio_edges (H := Demo.collaborators []) Demo.sparse 0.25)
    as (_ & _ & _ & _ & _ & _ & _ & Hextract).
  split; [apply Hzero; reflexivity|].
  split; [apply Hinf; reflexivity|].
  apply (Hextract [0; 0.25; 0.5; 0.75; 1; 1.25; 1.5; 1.75; 2; 2.25; 2.5; 2.75]
           0); [reflexivity|left; reflexivity|reflexivity].
Defined.

(** ** The files and the guard of the segment scorer *)

Section ScorerEffects.
Import ScorerSpec.
Context `{External}.

(** X7. [analyze_segment] does not use the script path it is given.
    Without the script it returns [None] and touches no file; with the
    script in place and the tool answering it returns the tokens of the
    answer, the runs of characters between white space, and leaves the
    script and the temporary files as they were, having used up two
    temporary names. *)
Theorem analyze_segment_effects (segment : Segment)
    (praat_script_path : nat) (path : string) (s : state) :
  fresh s ->
  (forall other, analyze_segment segment other path s
                 = analyze_segment segment praat_script_path path s)
  /\ (script s = None ->
      analyze_segment segment praat_script_path path s = (Ok None, s))
  /\ (forall content out,
        script s = Some content ->
        run_file content segment path = Ok out ->
        let run := analyze_segment segment praat_script_path path s in
        run.1 = Ok (Some (split out))
        /\ script run.2 = script s
        /\ temp run.2 = temp s
        /\ next run.2 = (next s + 2)%nat
        /\ fresh run.2).
Proof.
  intros Hfresh. split; [reflexivity|]. split.
  - intros Hscript. unfold analyze_segment, mbind, io_bind, read_script.
    rewrite Hscript. reflexivity.
  - intros content out Hscript Htool run. subst run.
    rewrite (analyze_segment_clean segment praat_script_path path s
               content out) by assumption.
    simpl. repeat split. apply (fresh_advance 2 s Hfresh).
Qed.

(** The guard [len(z2) > max(14, score_index)] is the same for every index
    up to 14. *)
Lemma accepted_low_index (score_index : nat) (measurements : list (list str)) :
  (score_index <= 14)%nat ->
  accepted score_index measurements = accepted 14 measurements.
Proof.
  intros Hlow. unfold accepted.
  replace (Nat.max 14 score_index) with (Nat.max 14 14) by lia.
  reflexivity.
Qed.

(** X8. The articulation rate, read at index 3, is held to the guard of
    the pronunciation score, read at index 14: both ask for more than
    fourteen tokens, so a measurement counts for the one exactly when it
    counts for the other.  When the tool answers for every segment and the
    fields read are numerals, the two averages have as many samples, and
    one is [None] exactly when the other is. *)
Theorem averages_share_the_guard (sound : Sound) (path : string)
    (s s' : state) (content : string) (outs : list str)
    (pronunciations articulations : list number) :
  fresh s -> fresh s' ->
  script s = Some content -> script s' = Some content ->
  Forall2 (fun segment out => run_file content segment path = Ok out)
    (segment_audio sound segment_length_default) outs ->
  Forall2 (fun z2 x => exists token,
               z2 !! 14%nat = Some token /\ float token = Ok x)
    (accepted 14 (split <$> outs)) pronunciations ->
  Forall2 (fun z2 x => exists token,
               z2 !! 3%nat = Some token /\ float token = Ok x)
    (accepted 3 (split <$> outs)) articulations ->
  accepted 3 (split <$> outs) = accepted 14 (split <$> outs)
  /\ length articulations = length pronunciations
  /\ (average_score (Ok sound) path 14 s).1 = Ok (average pronunciations)
  /\ (average_score (Ok sound) path 3 s').1 = Ok (average articulations)
  /\ ((average_score (Ok sound) path 14 s).1 = Ok None
      <-> (average_score (Ok sound) path 3 s').1 = Ok None).
Proof.
  intros Hfresh Hfresh' Hscript Hscript' Htools Hpron Hart.
  assert (Hguard : accepted 3 (split <$> outs) = accepted 14 (split <$> outs))
    by (apply accepted_low_index; lia).
  assert (Hlength : length articulations = length pronunciations).
  { rewrite <- (Forall2_length _ _ _ Hart), <- (Forall2_length _ _ _ Hpron).
    rewrite Hguard. reflexivity. }
  rewrite (average_score_accepted sound path 14 s content outs pronunciations)
    by assumption.
  rewrite (average_score_accepted sound path 3 s' content outs articulations)
    by assumption.
  split; [exact Hguard|]. split; [exact Hlength|].
  split; [reflexivity|]. split; [reflexivity|].
  destruct pronunciations, articulations; simpl in *;
    try discriminate; split; intros Heq; try reflexivity; discriminate.
Qed.

(** X13. The volume label of a sound whose intensity has frames is decided
    by [np.mean] of the levels: "Volume too low" exactly when the mean is
    below 45, "Volume too loud" exactly when it is above 75, and "Volume is
    ideal" exactly when it is neither, which a mean that is NaN is.  A
    contour without frames gives "Unknown volume". *)
Theorem volume_by_frames (snd : Sound) (intensity : Intensity) :
  to_intensity snd = Ok intensity ->
  (values intensity = [] -> analyze_volume snd = Ok "Unknown volume")
  /\ (values intensity <> [] ->
      let average := mean (values intensity) in
      (analyze_volume snd = Ok "Volume too low" <-> (average <? 45) = true)
      /\ (analyze_volume snd = Ok "Volume too loud"
          <-> (75 <? average) = true)
      /\ (analyze_volume snd = Ok "Volume is ideal"
          <-> (average <? 45) = false /\ (75 <? average) = false)
      /\ (PrimFloat.is_nan average = true ->
          analyze_volume snd = Ok "Volume is ideal")).
Proof.
  intros Hintensity. unfold analyze_volume. rewrite Hintensity.
  cbn [mbind result_bind].
  split; [intros ->; reflexivity|].
  intros Hframes.
  destruct (values intensity) as [|v vs] eqn:Hvalues; [contradiction|].
  change (0 <? length (v :: vs))%nat with true. cbv iota.
  set (average := mean (v :: vs)). unfold low_threshold, high_threshold.
  assert (Hexclusive : (average <? 45) = true -> (75 <? average) = true ->
                       False).
  { intros Hlow Hhigh. apply ltb_leb in Hlow, Hhigh.
    pose proof (leb_trans _ _ _ Hhigh Hlow) as Habsurd.
    vm_compute in Habsurd. discriminate. }
  destruct (average <? 45) eqn:Hlow, (75 <? average) eqn:Hhigh;
    try (exfalso; apply Hexclusive; reflexivity).
  - repeat split; try discriminate; try tauto.
    + intros [? _]; discriminate.
    + intros Hnan. apply ltb_number in Hlow as [Hnumber _]. congruence.
  - repeat split; try discriminate; try tauto.
    + intros [_ ?]; discriminate.
    + intros Hnan. apply ltb_number in Hhigh as [_ Hnumber]. congruence.
  - repeat split; try discriminate; tauto.
Qed.

End ScorerEffects.

Lemma analyze_segment_effects_witness :
  temp (analyze_segment (H := Demo.collaborators [Ok Demo.full_output])
          {| source := Demo.clip 10; from_time := 0; to_time := 10 |}
          7 "" Demo.disk).2 = temp Demo.disk.
Proof.
  assert (Hfresh : fresh Demo.disk) by (intros name _; reflexivity).
  destruct (analyze_segment_effects
              (H := Demo.collaborators [Ok Demo.full_output])
              {| source := Demo.clip 10; from_time := 0; to_time := 10 |}
              7 "" Demo.disk Hfresh) as (_ & _ & Hrun).
  destruct (Hrun "form" Demo.full_output eq_refl eq_refl)
    as (_ & _ & Htemp & _).
  exact Htemp.
Defined.

Lemma averages_share_the_guard_witness :
  (average_score (H := Demo.mixed_answers) (Ok (Demo.clip 20)) "" 14
     Demo.disk).1 = Ok None
  <-> (average_score (H := Demo.mixed_answers) (Ok (Demo.clip 20)) "" 3
         Demo.disk).1 = Ok None.
Proof.
  assert (Hfresh : fresh Demo.disk) by (intros name _; reflexivity).
  assert (Htools :
            Forall2 (fun segment out =>
                       run_file (External := Demo.mixed_answers)
                         "form" segment "" = Ok out)
              (segment_audio (H := Demo.mixed_answers) (Demo.clip 20)
                 segment_length_default)
              [Demo.full_output; Demo.truncated_output]).
  { repeat constructor. }
  assert (Hpron :
            Forall2 (fun z2 x => exists token,
                         z2 !! 14%nat = Some token
                         /\ Demo.decimal token = Ok x)
              (ScorerSpec.accepted 14
                 (split <$> [Demo.full_output; Demo.truncated_output]))
              [0.8]).
  { repeat (constructor; [eexists; split; reflexivity|]). constructor. }
  assert (Hart :
            Forall2 (fun z2 x => exists token,
                         z2 !! 3%nat = Some token
                         /\ Demo.decimal token = Ok x)
              (ScorerSpec.accepted 3
                 (split <$> [Demo.full_output; Demo.truncated_output]))
              [3.5]).
  { repeat (constructor; [eexists; split; reflexivity|]). constructor. }
  destruct (averages_share_the_guard (H := Demo.mixed_answers)
              (Demo.clip 20) "" Demo.disk Demo.disk "form"
              [Demo.full_output; Demo.truncated_output] [0.8] [3.5]
              Hfresh Hfresh eq_refl eq_refl Htools Hpron Hart)
    as (_ & _ & _ & _ & Hboth).
  exact Hboth.
Defined.

Lemma volume_by_frames_witness :
  analyze_volume (H := Demo.collaborators []) (Demo.clip 10)
  = Ok "Volume is ideal".
Proof.
  destruct (volume_by_frames (H := Demo.collaborators []) (Demo.clip 10)
              {| xs := [0; 1; 2; 3]; values := [60; 62; 58; 61] |} eq_refl)
    as [_ Hframes].
  destruct Hframes as (_ & _ & Hideal & _); [discriminate|].
  apply Hideal. split; reflexivity.
Defined.

(** ** Cleaning up *)

Section Cleanup.
Import Endpoint.

(** The state after the attempt on one path. *)
Abbreviation attempted p s :=
  ((if path_exists p s then remove p else mret tt) s).2.

Lemma attempted_effect (p : path) (s : state) :
  path_exists p (attempted p s) = false
  /\ (forall q, path_exists q s = false -> path_exists q (attempted p s) = false)
  /\ (forall name, p <> Temporary name ->
        temp (attempted p s) !! name = temp s !! name)
  /\ (p <> Script -> script (attempted p s) = script s)
  /\ next (attempted p s) = next s.
Proof.
  destruct s as [present files fresh_name], p as [|name|other]; simpl.
  - destruct present as [content|]; simpl.
    + split; [reflexivity|]. split; [|repeat split; try contradiction; auto].
      intros [| |]; simpl; auto.
    + repeat split; auto.
  - destruct (files !! name) as [content|] eqn:Hfile;
      simpl; unfold os_remove; simpl; rewrite ?Hfile; simpl.
    + split; [rewrite lookup_delete_eq; reflexivity|].
      split; [|split; [|split; reflexivity]].
      * intros [|other|]; simpl; auto. intros Hgone.
        apply bool_decide_eq_false in Hgone.
        apply bool_decide_eq_false. intros [c Hc]. apply Hgone.
        destruct (decide (name = other)) as [->|Hne].
        -- rewrite lookup_delete_eq in Hc. discriminate.
        -- rewrite lookup_delete_ne in Hc by exact Hne. eauto.
      * intros other Hne. apply lookup_delete_ne. congruence.
    + rewrite ?Hfile. repeat split; auto.
  - repeat split; auto.
Qed.

(** A file that is gone stays gone through a run of [cleanup_files]. *)
Lemma cleanup_files_keeps_gone (file_paths : list path) :
  forall (s : state) (q : path),
  path_exists q s = false ->
  path_exists q (cleanup_files file_paths s).2 = false.
Proof.
  induction file_paths as [|p file_paths IH]; intros s q Hgone; [exact Hgone|].
  simpl. apply IH. apply (attempted_effect p s). exact Hgone.
Qed.

(** Nothing is left to do when none of the paths names a file. *)
Lemma cleanup_files_nothing (file_paths : list path) (s : state) :
  (forall p, In p file_paths -> path_exists p s = false) ->
  cleanup_files file_paths s = (Ok tt, s).
Proof.
  induction file_paths as [|p file_paths IH]; intros Hgone; [reflexivity|].
  simpl. rewrite (Hgone p (or_introl eq_refl)). simpl.
  apply IH. intros q Hq. apply Hgone. right. exact Hq.
Qed.

Lemma cleanup_files_effect (file_paths : list path) :
  forall s : state,
  (cleanup_files file_paths s).1 = Ok tt
  /\ (forall p, In p file_paths ->
        path_exists p (cleanup_files file_paths s).2 = false)
  /\ (forall name, ~ In (Temporary name) file_paths ->
        temp (cleanup_files file_paths s).2 !! name = temp s !! name)
  /\ (~ In Script file_paths -> script (cleanup_files file_paths s).2 = script s)
  /\ next (cleanup_files file_paths s).2 = next s.
Proof.
  induction file_paths as [|p file_paths IH]; intros s.
  - simpl. repeat split; auto. intros p [].
  - simpl. destruct (IH (attempted p s)) as (Hok & Hgone & Htemp & Hscript & Hnext).
    destruct (attempted_effect p s) as (Hp & _ & Hptemp & Hpscript & Hpnext).
    split; [exact Hok|]. split; [|split; [|split]].
    + intros q [<-|Hq]; [|apply Hgone, Hq].
      apply cleanup_files_keeps_gone. exact Hp.
    + intros name Hname. rewrite Htemp by tauto. apply Hptemp.
      intros ->. apply Hname. left. reflexivity.
    + intros Hnot. rewrite Hscript by tauto. apply Hpscript.
      intros ->. apply Hnot. left. reflexivity.
    + rewrite Hnext. exact Hpnext.
Qed.

(** X15. [cleanup_files] never raises.  After it none of the listed paths
    names a file, whether the file was there or not; the temporary files
    that are not listed keep their content, the script is kept unless it is
    listed, and no temporary name is used up.  A second run changes
    nothing. *)
Theorem cleanup_files_removes_the_listed (file_paths : list path) (s : state) :
  let run := cleanup_files file_paths s in
  run.1 = Ok tt
  /\ (forall p, In p file_paths -> path_exists p run.2 = false)
  /\ (forall name, ~ In (Temporary name) file_paths ->
        temp run.2 !! name = temp s !! name)
  /\ (~ In Script file_paths -> script run.2 = script s)
  /\ next run.2 = next s
  /\ cleanup_files file_paths run.2 = (Ok tt, run.2).
Proof.
  intros run. subst run.
  destruct (cleanup_files_effect file_paths s)
    as (Hok & Hgone & Htemp & Hscript & Hnext).
  repeat (split; [assumption|]).
  apply cleanup_files_nothing. exact Hgone.
Qed.

End Cleanup.

(** ** The request handler *)

Section Requests.
Import Endpoint.
Context `{External}.

(** The report of [perform_analysis] always passes [prepare_response_data]. *)
Lemma perform_analysis_prepared (wav : result (Z * ndarray sample))
    (audio : result Sound) (path : string) (s : state) :
  exists report s' criteria overall,
    perform_analysis wav audio path s = (Ok report, s')
    /\ prepare_response_data report = Some (Report criteria overall).
Proof.
  destruct (perform_analysis_outcome wav audio path s)
    as [[s' Hrun] | (s' & pitch_result & volume_result & silence_result
                     & pronunciation & articulation & overall & Hrun & _)];
    rewrite Hrun; do 4 eexists; (split; [reflexivity|]);
    vm_compute; reflexivity.
Qed.

(** The state once the upload is written to its temporary file. *)
Abbreviation uploaded contents s :=
  {| script := script s;
     temp := <[next s := Text contents]> (<[next s := Text ""]> (temp s));
     next := S (next s) |}.

(** The [try] block after a successful read of the upload. *)
Lemma handle_uploaded (contents : string) (moviepy : nat -> io nat)
    (wav : result (Z * ndarray sample)) (audio : result Sound)
    (path : string) (s : state) :
  exists content s',
    handle (Ok contents) moviepy wav audio path s
      = (Ok (JSONResponse content), s')
    /\ path_exists (Temporary (next s)) s' = false
    /\ match moviepy (next s) (uploaded contents s) with
       | (Ok audio_file, _) =>
           (exists criteria overall, content = Report criteria overall)
           /\ path_exists (Temporary audio_file) s' = false
       | (Raise _, s3) =>
           content = Failure "Failed to convert video to audio."
           /\ script s' = script s3
           /\ (forall name, name <> next s ->
                 temp s' !! name = temp s3 !! name)
       end.
Proof.
  unfold handle, mbind at 1, io_bind at 1, named_temporary_file.
  cbn [fst snd].
  unfold mbind at 1, io_bind at 1, lift at 1.
  unfold mbind at 1, io_bind at 1, write at 1. cbn [script temp next].
  unfold mbind at 1, io_bind at 1, convert_video_to_audio at 1.
  destruct (moviepy (next s) (uploaded contents s)) as [[audio_file|e] s3].
  - cbn [is_empty].
    unfold mbind at 1, io_bind at 1. unfold mbind at 1, io_bind at 1.
    destruct (perform_analysis_prepared wav audio path s3)
      as (report & s4 & criteria & overall & Hrun & Hprepared).
    rewrite Hrun, Hprepared.
    unfold mret at 1, io_ret at 1.
    unfold mbind at 1, io_bind at 1.
    destruct (cleanup_files_effect
                [Temporary (next s); Temporary audio_file] s4)
      as (Hok & Hgone & _).
    destruct (cleanup_files [Temporary (next s); Temporary audio_file] s4)
      as [[[]|e] s5]; [|discriminate].
    exists (Report criteria overall), s5.
    split; [reflexivity|].
    split; [exact (Hgone _ (or_introl eq_refl))|].
    split; [exists criteria, overall; reflexivity|].
    exact (Hgone _ (or_intror (or_introl eq_refl))).
  - cbn [is_empty String.eqb]. unfold mbind at 1, io_bind at 1.
    unfold mret at 1, io_ret at 1. unfold mbind at 1, io_bind at 1.
    destruct (cleanup_files_effect [Temporary (next s); Other ""] s3)
      as (Hok & Hgone & Htemp & Hscript & _).
    destruct (cleanup_files [Temporary (next s); Other ""] s3)
      as [[[]|e'] s5]; [|discriminate].
    exists (Failure "Failed to convert video to audio."), s5.
    split; [reflexivity|].
    split; [exact (Hgone _ (or_introl eq_refl))|].
    split; [reflexivity|]. split.
    + apply Hscript. intros [[=]|[[=]|[]]].
    + intros name Hname. apply Htemp.
      intros [[= Heq]|[[=]|[]]]. apply Hname. symmetry. exact Heq.
Qed.

(** X16. Once the upload is read, [analyze_video] answers with a JSON
    response, and when it returns the video file it made is gone.  After a
    conversion that succeeded the content is a report and the audio file is
    gone too.  After a conversion that failed the content is the error
    object, and apart from the video file every file is as the conversion
    left it: an audio file written before the failure stays on disk, for
    the empty path that [convert_video_to_audio] returned is all that
    [cleanup_files] is given. *)
Theorem upload_is_answered (contents : string) (moviepy : nat -> io nat)
    (wav : result (Z * ndarray sample)) (audio : result Sound)
    (path : string) (s : state) :
  let run := analyze_video (Ok contents) moviepy wav audio path s in
  path_exists (Temporary (next s)) run.2 = false
  /\ match moviepy (next s) (uploaded contents s) with
     | (Ok audio_file, _) =>
         (exists criteria overall,
            run.1 = Ok (JSONResponse (Report criteria overall)))
         /\ path_exists (Temporary audio_file) run.2 = false
     | (Raise _, s3) =>
         run.1 = Ok (JSONResponse (Failure "Failed to convert video to audio."))
         /\ script run.2 = script s3
         /\ (forall name, name <> next s ->
               temp run.2 !! name = temp s3 !! name)
     end.
Proof.
  intros run. subst run. unfold analyze_video.
  destruct (handle_uploaded contents moviepy wav audio path s)
    as (content & s' & -> & Hvideo & Hcontent).
  cbn [fst snd]. split; [exact Hvideo|].
  destruct (moviepy (next s) (uploaded contents s)) as [[audio_file|e] s3].
  - destruct Hcontent as [(criteria & overall & ->) Haudio].
    split; [exists criteria, overall; reflexivity|exact Haudio].
  - destruct Hcontent as (-> & Hscript & Htemp).
    split; [reflexivity|]. split; assumption.
Qed.

(** X17. When reading the upload raises, [analyze_video] answers with the
    HTTP error 500 and stops before the conversion and the cleanup: the
    empty video file it had just made, which did not exist before, stays
    on disk, and nothing else of the file system changes. *)
Theorem failed_upload_leaves_the_video_file (e : exn)
    (moviepy : nat -> io nat) (wav : result (Z * ndarray sample))
    (audio : result Sound) (path : string) (s : state) :
  fresh s ->
  let run := analyze_video (Raise e) moviepy wav audio path s in
  run.1 = Ok (HTTPException 500)
  /\ path_exists (Temporary (next s)) s = false
  /\ path_exists (Temporary (next s)) run.2 = true
  /\ temp run.2 = <[next s := Text ""]> (temp s)
  /\ script run.2 = script s.
Proof.
  intros Hfresh run. subst run.
  split; [reflexivity|].
  split; [|split; [|split; reflexivity]].
  - apply bool_decide_eq_false. rewrite (Hfresh (next s)) by lia.
    intros [c Hc]. discriminate.
  - apply bool_decide_eq_true. exists (Text "").
    apply lookup_insert_eq.
Qed.

End Requests.

Lemma failed_upload_leaves_the_video_file_witness :
  fresh Demo.disk
  /\ (Endpoint.analyze_video (H := Demo.broken) (Raise LibraryError)
        Demo.extract_audio (Ok (44100%Z, Mono [100%Z; 140%Z]))
        (Ok Demo.speech) "" Demo.disk).1
     = Ok (Endpoint.HTTPException 500).
Proof.
  assert (Hfresh : fresh Demo.disk) by (intros name _; reflexivity).
  split; [exact Hfresh|].
  destruct (failed_upload_leaves_the_video_file (H := Demo.broken)
              LibraryError Demo.extract_audio
              (Ok (44100%Z, Mono [100%Z; 140%Z])) (Ok Demo.speech) ""
              Demo.disk Hfresh) as [Hanswer _].
  exact Hanswer.
Defined.

(** A conversion that writes the audio file and then fails: the handler
    answers with the error object and the audio file is still there. *)
Lemma upload_is_answered_witness :
  let run :=
    Endpoint.analyze_video (H := Demo.broken) (Ok "webm") Demo.interrupted
      (Raise LibraryError) (Raise LibraryError) "" Demo.disk in
  run.1 = Ok (Endpoint.JSONResponse
                (Endpoint.Failure "Failed to convert video to audio."))
  /\ Endpoint.path_exists (Endpoint.Temporary 0) run.2 = false
  /\ temp run.2 !! 1%nat = Some (Text "RIFF").
Proof.
  pose proof (upload_is_answered (H := Demo.broken) "webm" Demo.interrupted
                (Raise LibraryError) (Raise LibraryError) "" Demo.disk)
    as [Hvideo Hrest].
  cbv zeta in *. cbn [Demo.interrupted] in Hrest.
  destruct Hrest as (Hanswer & _ & Htemp).
  split; [exact Hanswer|]. split; [exact Hvideo|].
  rewrite (Htemp 1%nat) by discriminate. reflexivity.
Defined.
